(** * silver-prices: the SGE / COMEX / FX price endpoints

    A shallow embedding of the two serverless handlers of the repository,

    - the aggregator (three adapters [fetchSGE], [fetchCOMEX], [fetchFX]
      joined with [Promise.allSettled], then the assembly of the composite
      payload), and
    - the standalone [api/shanghai.js] endpoint (one sequential
      [try]/[catch]),

    together with the part of the JavaScript runtime they rest on: IEEE
    binary64 numbers (Rocq's primitive floats), truthiness, numeric coercion,
    [parseFloat], [Number.prototype.toFixed] and [String.prototype.trim]. *)

From Stdlib Require Import ZArith List String Ascii Bool Floats Lia.
From Stdlib Require Import DecimalString DecimalPos.
Import ListNotations.

#[local] Set Warnings "-inexact-float,-register-all".
#[local] Open Scope string_scope.
#[local] Open Scope Z_scope.

(** ** The JavaScript runtime *)

Module JS.

(** *** Strings

    A string is a sequence of code units; the model covers the code units
    below 256.  [is_space] is the WhiteSpace and LineTerminator classes
    restricted to that range: TAB, LF, VT, FF, CR, SP and NBSP. *)

Definition is_space (c : ascii) : bool :=
  let n := Z.of_N (N_of_ascii c) in
  ((9 <=? n) && (n <=? 13)) || (n =? 32) || (n =? 160).

Fixpoint trimStart (s : string) : string :=
  match s with
  | String c s' => if is_space c then trimStart s' else s
  | EmptyString => EmptyString
  end.

Fixpoint trimEnd (s : string) : string :=
  match s with
  | EmptyString => EmptyString
  | String c s' =>
      match trimEnd s' with
      | EmptyString => if is_space c then EmptyString else String c EmptyString
      | t => String c t
      end
  end.

(** [String.prototype.trim] *)
Definition trim (s : string) : string := trimEnd (trimStart s).

Definition digit_of (c : ascii) : option Z :=
  let n := Z.of_N (N_of_ascii c) in
  if (48 <=? n) && (n <=? 57) then Some (n - 48) else None.

(** The longest run of decimal digits at the head of [s]: the value read so
    far (starting from [acc]), how many digits were read, and the rest. *)
Fixpoint digits (s : string) (acc : Z) (count : Z) : Z * Z * string :=
  match s with
  | String c s' =>
      match digit_of c with
      | Some d => digits s' (10 * acc + d) (count + 1)
      | None => (acc, count, s)
      end
  | EmptyString => (acc, count, s)
  end.

Definition sign (s : string) : bool * string :=
  match s with
  | String "-" r => (true, r)
  | String "+" r => (false, r)
  | _ => (false, s)
  end.

(** *** Numbers *)

(** The Number value of the decimal [m * 10^e] with sign [neg]: the binary64
    nearest to it, ties to even. *)
Definition decimal_value (neg : bool) (m : Z) (e : Z) : float :=
  match m with
  | Zpos p =>
      let num := if 0 <? e then (p * Pos.pow 10 (Z.to_pos e))%positive else p in
      let den := if e <? 0 then Pos.pow 10 (Z.to_pos (- e)) else 1%positive in
      SF2Prim (SFdiv prec emax (S754_finite neg num 0) (S754_finite false den 0))
  | _ => if neg then neg_zero else zero
  end.

(** The ExponentPart of a StrDecimalLiteral, when one is there ([e] or [E],
    an optional sign and at least one digit), and what follows it. *)
Definition exponent (s : string) : Z * string :=
  match s with
  | String c r =>
      if (Ascii.eqb c "e" || Ascii.eqb c "E")%bool then
        let (neg, r') := sign r in
        let '(v, n, rest) := digits r' 0 0 in
        if n =? 0 then (0, s) else (if neg then - v else v, rest)
      else (0, s)
  | EmptyString => (0, s)
  end.

(** The longest prefix of [s] that is a StrDecimalLiteral, as its Number
    value, with the rest of [s]; [None] when no prefix is one. *)
Definition read_decimal (s : string) : option (float * string) :=
  let (neg, s1) := sign s in
  if prefix "Infinity" s1
  then Some (if neg then neg_infinity else infinity, substring 8 (String.length s1) s1)
  else
    let '(i, ni, s2) := digits s1 0 0 in
    let '(f, nf, s3) :=
      match s2 with
      | String "." r => digits r i 0
      | _ => (i, 0, s2)
      end in
    if ni + nf =? 0 then None
    else
      let (e, rest) := exponent s3 in
      Some (decimal_value neg f (e - nf), rest).

(** The global [parseFloat]: leading white space is skipped, the longest
    prefix that is a StrDecimalLiteral is read, and [NaN] is the result when
    there is none. *)
Definition parseFloat (s : string) : float :=
  match read_decimal (trimStart s) with
  | Some (x, _) => x
  | None => nan
  end.

(** [ToBoolean] on a Number: [NaN], [+0] and [-0] are falsy. *)
Definition truthy_num (x : float) : bool :=
  negb (PrimFloat.is_nan x || PrimFloat.is_zero x).

(** *** [Number.prototype.toFixed]

    For a finite [x] below [10^21] in magnitude: the integer [n] for which
    [n / 10^d - |x|] is as close to zero as possible, the larger [n] when
    there are two, written with at least [d + 1] digits and a point before
    the last [d]. *)

Definition round_half_up (m : positive) (e : Z) (d : nat) : Z :=
  let scaled := Zpos m * 10 ^ Z.of_nat d in
  if 0 <=? e then scaled * 2 ^ e
  else (2 * scaled + 2 ^ (- e)) / 2 ^ (1 - e).

Fixpoint zeros (n : nat) : string :=
  match n with
  | O => ""
  | S n' => String "0" (zeros n')
  end.

Definition fixed_string (neg : bool) (n : Z) (d : nat) : string :=
  let ds := NilZero.string_of_uint (N.to_uint (Z.to_N n)) in
  let ds := zeros (S d - String.length ds) ++ ds in
  let k := (String.length ds - d)%nat in
  let body :=
    match d with
    | O => ds
    | _ => substring 0 k ds ++ "." ++ substring k d ds
    end in
  if neg then "-" ++ body else body.

(** [None] stands for the remaining case, [|x| >= 10^21], in which
    [toFixed] hands over to [Number::toString]. *)
Definition toFixed (x : float) (d : nat) : option string :=
  match Prim2SF x with
  | S754_nan => Some "NaN"
  | S754_infinity s => Some (if s then "-Infinity" else "Infinity")
  | S754_zero _ => Some (fixed_string false 0 d)
  | S754_finite s m e =>
      if (1e21 <=? abs x)%float then None
      else Some (fixed_string s (round_half_up m e d) d)
  end.

(** [parseFloat(x.toFixed(d))], the rounding idiom of both handlers.  Where
    [toFixed] hands over to [Number::toString] the string read back is the
    one that denotes [x] itself. *)
Definition parseFloat_toFixed (x : float) (d : nat) : float :=
  match toFixed x d with
  | Some s => parseFloat s
  | None => x
  end.

(** [x] rounded to [d] decimal places: the multiple of [10^-d] nearest to
    [x], the one further from zero when two are as near, as a Number.  A
    number of magnitude [10^21] or more is an integer and stays as it is;
    zero comes out as [+0]. *)
Definition rounded (d : nat) (x : float) : float :=
  match Prim2SF x with
  | S754_finite s m e =>
      if (1e21 <=? abs x)%float then x
      else decimal_value s (round_half_up m e d) (- Z.of_nat d)
  | S754_zero _ => zero
  | _ => x
  end.

(** The number a string of decimal digits denotes, read after [acc]. *)
Fixpoint numeral (s : string) (acc : Z) : Z :=
  match s with
  | String c s' =>
      match digit_of c with
      | Some d => numeral s' (10 * acc + d)
      | None => acc
      end
  | EmptyString => acc
  end.

Fixpoint all_digits (s : string) : bool :=
  match s with
  | String c s' =>
      match digit_of c with
      | Some _ => all_digits s'
      | None => false
      end
  | EmptyString => true
  end.

(** [s] is empty or begins with a code unit that is no digit. *)
Definition no_digit_ahead (s : string) : bool :=
  match s with
  | String c _ =>
      match digit_of c with
      | Some _ => false
      | None => true
      end
  | EmptyString => true
  end.

(** *** Values parsed from JSON

    [Obj] holds the members of the parsed object, each name once;
    [Undefined] is what reading a missing member gives. *)

Inductive value : Type :=
| Undefined
| Null
| Bool (b : bool)
| Num (x : float)
| Str (s : string)
| Arr (items : list value)
| Obj (members : list (string * value)).

(** [ToBoolean] *)
Definition truthy (v : value) : bool :=
  match v with
  | Undefined | Null => false
  | Bool b => b
  | Num x => truthy_num x
  | Str s => negb (s =? "")%string
  | Arr _ | Obj _ => true
  end.

(** The digits of a [0x], [0o] or [0b] literal. *)
Definition radix_digit (base : Z) (c : ascii) : option Z :=
  let n := Z.of_N (N_of_ascii c) in
  let d :=
    if (48 <=? n) && (n <=? 57) then n - 48
    else if (97 <=? n) && (n <=? 102) then n - 87
    else if (65 <=? n) && (n <=? 70) then n - 55
    else base in
  if d <? base then Some d else None.

Fixpoint radix_value (base : Z) (s : string) (acc : Z) : option Z :=
  match s with
  | EmptyString => Some acc
  | String c s' =>
      match radix_digit base c with
      | Some d => radix_value base s' (base * acc + d)
      | None => None
      end
  end.

Definition radix_literal (s : string) : option Z :=
  match s with
  | String "0" (String c (String d r)) =>
      let body := String d r in
      if (Ascii.eqb c "x" || Ascii.eqb c "X")%bool then radix_value 16 body 0
      else if (Ascii.eqb c "o" || Ascii.eqb c "O")%bool then radix_value 8 body 0
      else if (Ascii.eqb c "b" || Ascii.eqb c "B")%bool then radix_value 2 body 0
      else None
  | _ => None
  end.

(** [StringToNumber]: the whole string, white space at both ends apart, has
    to be a numeric literal; the empty string is [0]. *)
Definition StringToNumber (s : string) : float :=
  let t := trim s in
  if (t =? "")%string then zero
  else
    match radix_literal t with
    | Some n => decimal_value false n 0
    | None =>
        match read_decimal t with
        | Some (x, EmptyString) => x
        | _ => nan
        end
    end.

(** The Number a value parsed from JSON converts to, when the conversion
    does not throw.  An array goes through [Array.prototype.join]: no element
    gives the empty string, one element gives that element's string (the
    empty string for [null]), and two or more give a string with a comma,
    which is no numeric literal.  An object goes through
    [Object.prototype.toString], whose result is no numeric literal either. *)
Fixpoint number_of (v : value) : float :=
  match v with
  | Undefined => nan
  | Null => zero
  | Bool b => if b then one else zero
  | Num x => x
  | Str s => StringToNumber s
  | Obj _ => nan
  | Arr [] => zero
  | Arr [e] =>
      match e with
      | Undefined | Null => zero
      | Bool _ | Obj _ => nan
      | Num x => if PrimFloat.is_zero x then zero else x
      | Str s => StringToNumber s
      | Arr _ => number_of e
      end
  | Arr _ => nan
  end.

(** Whether [ToPrimitive] throws on a value parsed from JSON.  No member of
    such a value is callable, so an object that has a member of its own named
    [toString] is left without a conversion method; an array throws when the
    [join] of its elements does. *)
Fixpoint throws (v : value) : bool :=
  match v with
  | Obj ms => existsb (fun m => (fst m =? "toString")%string) ms
  | Arr items => existsb throws items
  | _ => false
  end.

(** *** Promises and exceptions

    A settled promise, as [Promise.allSettled] reports it; the same type
    serves for the completion of a block that may throw.  Of the reason of a
    rejection the handlers read the [message] only. *)

Inductive Settled (A : Type) : Type :=
| Fulfilled (a : A)
| Rejected (message : string).
Arguments Fulfilled {A} a.
Arguments Rejected {A} message.

(** [ToNumber], as the operators [*], [/] and [-] apply it. *)
Definition ToNumber (v : value) : Settled float :=
  if throws v then Rejected "Cannot convert object to primitive value"
  else Fulfilled (number_of v).

Definition outcome_value {A} (p : Settled A) : option A :=
  match p with
  | Fulfilled a => Some a
  | Rejected _ => None
  end.

Definition is_rejected {A} (p : Settled A) : bool :=
  match p with
  | Fulfilled _ => false
  | Rejected _ => true
  end.

(** *** The network and the clock *)

(** A [tr] of the page, as the text of its [td] cells. *)
Definition Row : Type := list string.

(** A response of [fetch]: its status, and what reading its body as text
    (then selecting ['table tr'] in it) or as JSON settles to. *)
Record Response : Type := {
  status : Z;
  text : Settled (list Row);
  json : Settled value
}.

(** [Response.ok] *)
Definition ok (r : Response) : bool := (200 <=? status r) && (status r <=? 299).

Record Env : Type := {
  net : string -> Settled Response;  (* a timeout is one of the rejections *)
  clock : string                     (* [new Date().toISOString()] *)
}.

(** An [async] computation: it reads the environment, records the URLs it
    requests, and settles. *)
Definition Async (A : Type) : Type :=
  Env -> list string -> Settled A * list string.

Definition ret {A} (a : A) : Async A := fun _ log => (Fulfilled a, log).

Definition throw {A} (message : string) : Async A :=
  fun _ log => (Rejected message, log).

Definition bind {A B} (m : Async A) (k : A -> Async B) : Async B :=
  fun env log =>
    match m env log with
    | (Fulfilled a, log') => k a env log'
    | (Rejected e, log') => (Rejected e, log')
    end.

(** [await] of a promise that has settled to [p] *)
Definition await {A} (p : Settled A) : Async A := fun _ log => (p, log).

(** Running a computation to the end and keeping its outcome: one entry of
    [Promise.allSettled], or a [try] block. *)
Definition settle {A} (m : Async A) : Async (Settled A) :=
  fun env log => let (r, log') := m env log in (Fulfilled r, log').

Definition fetch (url : string) : Async Response :=
  fun env log => (net env url, (log ++ [url])%list).

Definition now : Async string := fun env log => (Fulfilled (clock env), log).

Definition show_int (n : Z) : string := NilZero.string_of_int (Z.to_int n).

(** Member [k] of a value other than [undefined] and [null].  The handlers
    read no built-in member (such as [length]), so a member is an own member
    of an object, or the element of an array or the code unit of a string at
    index [0]. *)
Definition member (v : value) (k : string) : value :=
  match v with
  | Obj ms =>
      match find (fun m => (fst m =? k)%string) ms with
      | Some m => snd m
      | None => Undefined
      end
  | Arr items => if (k =? "0")%string then hd Undefined items else Undefined
  | Str (String c _) =>
      if (k =? "0")%string then Str (String c EmptyString) else Undefined
  | _ => Undefined
  end.

(** [v.k] and [v[0]]: a [TypeError] on [undefined] and [null]. *)
Definition get (v : value) (k : string) : Async value :=
  match v with
  | Undefined =>
      throw ("Cannot read properties of undefined (reading '" ++ k ++ "')")
  | Null =>
      throw ("Cannot read properties of null (reading '" ++ k ++ "')")
  | _ => ret (member v k)
  end.

(** The outcome of a computation started with an empty request log. *)
Definition outcome {A} (m : Async A) (env : Env) : Settled A := fst (m env []).

End JS.

Declare Scope async_scope.
Delimit Scope async_scope with async.
Notation "x <- m ;; k" := (JS.bind m (fun x => k))
  (at level 100, m at next level, right associativity) : async_scope.

#[local] Open Scope async_scope.

(** ** The aggregator: three adapters and the assembly of their outcomes *)

Module Aggregator.
Import JS.

Definition TROY_OZ_PER_KG : float := 32.1507465686%float.

Definition SGE_URL : string := "https://en.sge.com.cn/data_DelayedQuotes".
Definition COMEX_URL : string := "https://data-asg.goldprice.org/dbXRates/USD".
Definition FX_URL : string := "https://open.er-api.com/v6/latest/USD".

(** The request is aborted when the timer fires; the abort is one of the
    rejections of [net]. *)
Definition fetchWithTimeout (url : string) : Async Response := fetch url.

Record Quote : Type := {
  latest : float;
  high : float;
  low : float;
  open : option float   (* [None] is [null] *)
}.

(** [x || null] on a number or [null] *)
Definition or_null (x : option float) : option float :=
  match x with
  | Some v => if truthy_num v then Some v else None
  | None => None
  end.

Definition cell (cells : Row) (i : nat) : string := trim (nth i cells "").

(** The body of the [each] callback, on the [td] cells of one row and the
    [result] left by the rows before it. *)
Definition scan_row (result : option Quote) (cells : Row) : option Quote :=
  if (4 <=? List.length cells)%nat then
    let variety := cell cells 0 in
    if (variety =? "Ag(T+D)")%string then
      let latest := parseFloat (cell cells 1) in
      let high := parseFloat (cell cells 2) in
      let low := parseFloat (cell cells 3) in
      let open :=
        if (5 <=? List.length cells)%nat then Some (parseFloat (cell cells 4)) else None in
      if truthy_num latest && (0 <? latest)%float then
        Some {| latest := latest; high := high; low := low; open := or_null open |}
      else result
    else result
  else result.

Definition scan (rows : list Row) : option Quote := fold_left scan_row rows None.

(** A row the callback takes a quote from, and the quote it takes. *)
Definition priced (cells : Row) : bool :=
  (4 <=? List.length cells)%nat && (cell cells 0 =? "Ag(T+D)")%string &&
  (truthy_num (parseFloat (cell cells 1)) && (0 <? parseFloat (cell cells 1))%float).

Definition quote_of (cells : Row) : Quote :=
  {| latest := parseFloat (cell cells 1);
     high := parseFloat (cell cells 2);
     low := parseFloat (cell cells 3);
     open :=
       or_null (if (5 <=? List.length cells)%nat
                then Some (parseFloat (cell cells 4)) else None) |}.

Definition fetchSGE : Async Quote :=
  res <- fetchWithTimeout SGE_URL ;;
  if negb (ok res) then throw ("SGE HTTP " ++ show_int (status res))
  else
    html <- await (text res) ;;
    match scan html with
    | None => throw "Ag(T+D) not found or market closed"
    | Some result => ret result
    end.

Record Comex : Type := {
  price : value;
  change : value;
  changePercent : value;
  prevClose : value;
  timestamp : value
}.

Definition fetchCOMEX : Async Comex :=
  res <- fetchWithTimeout COMEX_URL ;;
  if negb (ok res) then throw ("COMEX HTTP " ++ show_int (status res))
  else
    data <- await (json res) ;;
    items <- get data "items" ;;
    item <- (if truthy items then get items "0" else ret items) ;;
    xagPrice <- (if truthy item then get item "xagPrice" else ret Undefined) ;;
    if negb (truthy item) || negb (truthy xagPrice)
    then throw "Silver price not found in COMEX data"
    else
      chgXag <- get item "chgXag" ;;
      pcXag <- get item "pcXag" ;;
      xagClose <- get item "xagClose" ;;
      date <- get data "date" ;;
      iso <- now ;;
      ret {| price := xagPrice;
             change := chgXag;
             changePercent := pcXag;
             prevClose := xagClose;
             timestamp := if truthy date then date else Str iso |}.

Definition fetchFX : Async value :=
  res <- fetchWithTimeout FX_URL ;;
  if negb (ok res) then throw ("FX HTTP " ++ show_int (status res))
  else
    data <- await (json res) ;;
    rates <- get data "rates" ;;
    cny <- (if truthy rates then get rates "CNY" else ret rates) ;;
    if negb (truthy cny) then throw "CNY rate not found"
    else ret cny.

(** [data.rates && data.rates.CNY] on a document other than [null]. *)
Definition cny_of (data : value) : value :=
  let rates := member data "rates" in
  if truthy rates then member rates "CNY" else rates.

(** *** The composite payload *)

Record SgeEntry : Type := {
  usd_per_oz : float;
  rmb_per_kg : float;
  rmb_high : float;
  rmb_low : float;
  rmb_open : option float
}.

Record FxEntry : Type := { usd_cny : value }.

Record Premium : Type := { usd : float; percent : float }.

Record ErrorEntry : Type := { source : string; message : string }.

Record Result : Type := {
  result_timestamp : string;
  sge : option SgeEntry;      (* [None] is [null], here and below *)
  comex : option Comex;
  fx : option FxEntry;
  premium : option Premium;
  errors : list ErrorEntry
}.

Definition set_sge (r : Result) (v : SgeEntry) : Result :=
  {| result_timestamp := result_timestamp r; sge := Some v; comex := comex r;
     fx := fx r; premium := premium r; errors := errors r |}.

Definition set_comex (r : Result) (v : Comex) : Result :=
  {| result_timestamp := result_timestamp r; sge := sge r; comex := Some v;
     fx := fx r; premium := premium r; errors := errors r |}.

Definition set_fx (r : Result) (v : FxEntry) : Result :=
  {| result_timestamp := result_timestamp r; sge := sge r; comex := comex r;
     fx := Some v; premium := premium r; errors := errors r |}.

Definition set_premium (r : Result) (v : Premium) : Result :=
  {| result_timestamp := result_timestamp r; sge := sge r; comex := comex r;
     fx := fx r; premium := Some v; errors := errors r |}.

(** [result.errors.push({ source, message })] *)
Definition push_error (r : Result) (src msg : string) : Result :=
  {| result_timestamp := result_timestamp r; sge := sge r; comex := comex r;
     fx := fx r; premium := premium r;
     errors := (errors r ++ [{| source := src; message := msg |}])%list |}.

(** [reason?.message || 'Unknown error'] *)
Definition message_of (reason : string) : string :=
  if (reason =? "")%string then "Unknown error" else reason.

(** [usdPerOz], then [parseFloat(usdPerOz.toFixed(4))]. *)
Definition convert (rmb : float) (rate : value) : Settled float :=
  match ToNumber rate with
  | Fulfilled r =>
      let usdPerOz := (rmb / (TROY_OZ_PER_KG * r))%float in
      Fulfilled (parseFloat_toFixed usdPerOz 4)
  | Rejected e => Rejected e
  end.

Definition premium_of (usd_oz : float) (ref : value) : Settled Premium :=
  match ToNumber ref with
  | Fulfilled r =>
      let premiumUsd := (usd_oz - r)%float in
      let premiumPct := ((usd_oz - r) / r * 100)%float in
      Fulfilled {| usd := parseFloat_toFixed premiumUsd 4;
                   percent := parseFloat_toFixed premiumPct 2 |}
  | Rejected e => Rejected e
  end.

Definition process_comex (comexResult : Settled Comex) (result : Result) : Result :=
  match comexResult with
  | Fulfilled v => set_comex result v
  | Rejected reason => push_error result "comex" (message_of reason)
  end.

Definition process_fx (fxResult : Settled value) (result : Result) : Result :=
  match fxResult with
  | Fulfilled v => set_fx result {| usd_cny := v |}
  | Rejected reason => push_error result "fx" (message_of reason)
  end.

Definition process_sge (sgeResult : Settled Quote) (result : Result) :
    Settled Result :=
  match sgeResult, fx result with
  | Fulfilled q, Some f =>
      match convert (latest q) (usd_cny f) with
      | Fulfilled usd_oz =>
          let result :=
            set_sge result
              {| usd_per_oz := usd_oz;
                 rmb_per_kg := latest q;
                 rmb_high := high q;
                 rmb_low := low q;
                 rmb_open := open q |} in
          match comex result with
          | Some c =>
              match premium_of usd_oz (price c) with
              | Fulfilled p => Fulfilled (set_premium result p)
              | Rejected e => Rejected e
              end
          | None => Fulfilled result
          end
      | Rejected e => Rejected e
      end
  | Rejected reason, _ => Fulfilled (push_error result "sge" (message_of reason))
  | Fulfilled _, None =>
      Fulfilled (push_error result "sge" "Cannot convert without FX rate")
  end.

(** The part of the handler after [Promise.allSettled]: the payload built
    from the three outcomes, in the order of the source.  It is rejected
    when a conversion to a number throws. *)
Definition assemble (iso : string)
    (sgeResult : Settled Quote) (comexResult : Settled Comex)
    (fxResult : Settled value) : Settled Result :=
  let result :=
    {| result_timestamp := iso; sge := None; comex := None; fx := None;
       premium := None; errors := [] |} in
  let result := process_comex comexResult result in
  let result := process_fx fxResult result in
  process_sge sgeResult result.

(** Whether one of the two conversions the assembly makes throws: of the
    rate, when SGE and FX are fulfilled, and then of the reference price,
    when COMEX is fulfilled too. *)
Definition crashes (sgeResult : Settled Quote) (comexResult : Settled Comex)
    (fxResult : Settled value) : bool :=
  match sgeResult, fxResult with
  | Fulfilled _, Fulfilled rate =>
      throws rate ||
      match comexResult with
      | Fulfilled c => throws (price c)
      | Rejected _ => false
      end
  | _, _ => false
  end.

(** The payload as a function of the three outcomes: what [assemble] settles
    to when no conversion throws. *)
Definition payload (iso : string)
    (sgeResult : Settled Quote) (comexResult : Settled Comex)
    (fxResult : Settled value) : Result :=
  let usd_oz (q : Quote) (rate : value) :=
    parseFloat_toFixed (latest q / (TROY_OZ_PER_KG * number_of rate)) 4 in
  {| result_timestamp := iso;
     sge :=
       match sgeResult, fxResult with
       | Fulfilled q, Fulfilled rate =>
           Some {| usd_per_oz := usd_oz q rate;
                   rmb_per_kg := latest q;
                   rmb_high := high q;
                   rmb_low := low q;
                   rmb_open := open q |}
       | _, _ => None
       end;
     comex := outcome_value comexResult;
     fx :=
       match fxResult with
       | Fulfilled rate => Some {| usd_cny := rate |}
       | Rejected _ => None
       end;
     premium :=
       match sgeResult, comexResult, fxResult with
       | Fulfilled q, Fulfilled c, Fulfilled rate =>
           let ref := number_of (price c) in
           Some {| usd := parseFloat_toFixed (usd_oz q rate - ref) 4;
                   percent :=
                     parseFloat_toFixed ((usd_oz q rate - ref) / ref * 100) 2 |}
       | _, _, _ => None
       end;
     errors :=
       (match comexResult with
        | Rejected e => [{| source := "comex"; message := message_of e |}]
        | Fulfilled _ => []
        end ++
        match fxResult with
        | Rejected e => [{| source := "fx"; message := message_of e |}]
        | Fulfilled _ => []
        end ++
        match sgeResult, fxResult with
        | Rejected e, _ => [{| source := "sge"; message := message_of e |}]
        | Fulfilled _, Rejected _ =>
            [{| source := "sge"; message := "Cannot convert without FX rate" |}]
        | Fulfilled _, Fulfilled _ => []
        end)%list |}.

(** [result.comex || result.sge ? 200 : 502] *)
Definition status_of (result : Result) : Z :=
  match comex result, sge result with
  | None, None => 502
  | _, _ => 200
  end.

Record Reply : Type := {
  code : Z;
  headers : list (string * string);
  body : option Result    (* [None]: [end()] with no body *)
}.

Definition CORS : list (string * string) :=
  [("Access-Control-Allow-Origin", "*"); ("Access-Control-Allow-Methods", "GET")].

(** [module.exports] *)
Definition handler (method : string) : Async Reply :=
  if (method =? "OPTIONS")%string
  then ret {| code := 200; headers := CORS; body := None |}
  else
    iso <- now ;;
    sgeResult <- settle fetchSGE ;;
    comexResult <- settle fetchCOMEX ;;
    fxResult <- settle fetchFX ;;
    result <- await (assemble iso sgeResult comexResult fxResult) ;;
    ret {| code := status_of result;
           headers :=
             (CORS ++ [("Cache-Control", "s-maxage=60, stale-while-revalidate=300")])%list;
           body := Some result |}.

(** The payload of one aggregation cycle, and the answer that carries it. *)
Definition cycle (env : Env) : Settled Result :=
  assemble (clock env) (outcome fetchSGE env) (outcome fetchCOMEX env)
    (outcome fetchFX env).

Definition reply_of (result : Result) : Reply :=
  {| code := status_of result;
     headers :=
       (CORS ++ [("Cache-Control", "s-maxage=60, stale-while-revalidate=300")])%list;
     body := Some result |}.

(** A row with four cells or more whose first cell is the label. *)
Definition labelled (cells : Row) : bool :=
  (4 <=? List.length cells)%nat && (cell cells 0 =? "Ag(T+D)")%string.

(** [data.items && data.items[0]] on a document other than [null]. *)
Definition item_of (data : value) : value :=
  let items := member data "items" in
  if truthy items then member items "0" else items.

(** The object [fetchCOMEX] returns for a document whose first item carries
    a price, at the time [iso]. *)
Definition comex_of (data : value) (iso : string) : Comex :=
  let item := item_of data in
  {| price := member item "xagPrice";
     change := member item "chgXag";
     changePercent := member item "pcXag";
     prevClose := member item "xagClose";
     timestamp := if truthy (member data "date") then member data "date" else Str iso |}.

End Aggregator.

(** ** The standalone endpoint, [api/shanghai.js] *)

Module Shanghai.
Import JS.

Definition sgeUrl : string := "https://en.sge.com.cn/data_DelayedQuotes".
Definition fxUrl : string := "https://open.er-api.com/v6/latest/USD".

Definition TROY_OZ_PER_KG : float := 32.1507465686%float.

(** The four variables the [each] callback assigns; [None] is [null]. *)
Record Ag : Type := {
  agLatest : option float;
  agHigh : option float;
  agLow : option float;
  agOpen : option float
}.

Definition cell (cells : Row) (i : nat) : string := trim (nth i cells "").

Definition scan_row (ag : Ag) (cells : Row) : Ag :=
  if (4 <=? List.length cells)%nat then
    let variety := cell cells 0 in
    if (variety =? "Ag(T+D)")%string then
      {| agLatest := Some (parseFloat (cell cells 1));
         agHigh := Some (parseFloat (cell cells 2));
         agLow := Some (parseFloat (cell cells 3));
         agOpen := Aggregator.or_null (Some (parseFloat (cell cells 4))) |}
    else ag
  else ag.

Definition scan (rows : list Row) : Ag :=
  fold_left scan_row rows
    {| agLatest := None; agHigh := None; agLow := None; agOpen := None |}.

(** A row the callback assigns from, and what it assigns. *)
Definition labelled (cells : Row) : bool :=
  (4 <=? List.length cells)%nat && (cell cells 0 =? "Ag(T+D)")%string.

Definition ag_of (cells : Row) : Ag :=
  {| agLatest := Some (parseFloat (cell cells 1));
     agHigh := Some (parseFloat (cell cells 2));
     agLow := Some (parseFloat (cell cells 3));
     agOpen := Aggregator.or_null (Some (parseFloat (cell cells 4))) |}.

(** [!agLatest || agLatest === 0] *)
Definition closed (agLatest : option float) : bool :=
  match agLatest with
  | None => true
  | Some x => negb (truthy_num x) || (x =? 0)%float
  end.

Record Price : Type := {
  usd_per_oz : float;
  rmb_per_kg : float;
  rmb_high : option float;
  rmb_low : option float;
  rmb_open : option float;
  usd_cny_rate : value;
  timestamp : string;
  source : string;
  note : string
}.

Record Failure : Type := {
  error : string;
  failure_timestamp : string;
  hint : string
}.

Inductive Payload : Type :=
| Empty
| PriceData (p : Price)
| ErrorData (f : Failure).

Record Reply : Type := {
  code : Z;
  headers : list (string * string);
  body : Payload
}.

Definition CORS : list (string * string) :=
  [("Access-Control-Allow-Origin", "*"); ("Access-Control-Allow-Methods", "GET")].

(** The [try] block. *)
Definition attempt : Async Reply :=
  sgeResponse <- fetch sgeUrl ;;
  if negb (ok sgeResponse)
  then throw ("SGE returned status " ++ show_int (status sgeResponse))
  else
    html <- await (text sgeResponse) ;;
    let ag := scan html in
    match agLatest ag with   (* [null] or a number *)
    | Some agLatest_ =>
        if closed (agLatest ag)
        then throw "Ag(T+D) price not found or market closed (0.0)"
        else
          fxResponse <- fetch fxUrl ;;
          if negb (ok fxResponse)
          then throw ("Exchange rate API returned status " ++ show_int (status fxResponse))
          else
            fxData <- await (json fxResponse) ;;
            rates <- get fxData "rates" ;;
            usdCny <- get rates "CNY" ;;
            if negb (truthy usdCny)
            then throw "CNY rate not found in exchange rate response"
            else
              rate <- await (ToNumber usdCny) ;;
              let usdPerOz := (agLatest_ / (TROY_OZ_PER_KG * rate))%float in
              iso <- now ;;
              ret {| code := 200;
                     headers :=
                       (CORS ++ [("Cache-Control",
                                  "s-maxage=1800, stale-while-revalidate=7200")])%list;
                     body := PriceData
                       {| usd_per_oz := parseFloat_toFixed usdPerOz 4;
                          rmb_per_kg := agLatest_;
                          rmb_high := agHigh ag;
                          rmb_low := agLow ag;
                          rmb_open := agOpen ag;
                          usd_cny_rate := usdCny;
                          timestamp := iso;
                          source := "Shanghai Gold Exchange - Ag(T+D) Delayed Quotes";
                          note := "Exchange rate is USD/CNY (onshore). Offshore CNH rate may differ slightly." |} |}
    | None => throw "Ag(T+D) price not found or market closed (0.0)"
    end.

(** The answer of the [try] block when nothing throws: for the variables
    [ag] of the parser, the latest price [x] and the rate [cny]. *)
Definition success_reply (iso : string) (ag : Ag) (x : float) (cny : value) : Reply :=
  {| code := 200;
     headers :=
       (CORS ++ [("Cache-Control", "s-maxage=1800, stale-while-revalidate=7200")])%list;
     body := PriceData
       {| usd_per_oz := parseFloat_toFixed (x / (TROY_OZ_PER_KG * number_of cny)) 4;
          rmb_per_kg := x;
          rmb_high := agHigh ag;
          rmb_low := agLow ag;
          rmb_open := agOpen ag;
          usd_cny_rate := cny;
          timestamp := iso;
          source := "Shanghai Gold Exchange - Ag(T+D) Delayed Quotes";
          note := "Exchange rate is USD/CNY (onshore). Offshore CNH rate may differ slightly." |} |}.

(** The answer of the [catch] block. *)
Definition error_reply (iso message : string) : Reply :=
  {| code := 500;
     headers :=
       (CORS ++ [("Cache-Control", "s-maxage=60, stale-while-revalidate=3600")])%list;
     body := ErrorData
       {| error := message;
          failure_timestamp := iso;
          hint := "SGE may be unreachable or market is closed. Cached data may still be served." |} |}.

(** The [catch] block. *)
Definition recover (message : string) : Async Reply :=
  iso <- now ;;
  ret (error_reply iso message).

(** [module.exports] *)
Definition handler (method : string) : Async Reply :=
  if (method =? "OPTIONS")%string
  then ret {| code := 200; headers := CORS; body := Empty |}
  else
    outcome <- settle attempt ;;
    match outcome with
    | Fulfilled reply => ret reply
    | Rejected message => recover message
    end.

End Shanghai.

(** ** Upstreams used in the examples *)

Module Upstream.
Import JS.

(** A response with status 200 whose body is an HTML page with these rows. *)
Definition page (rows : list Row) : Response :=
  {| status := 200; text := Fulfilled rows;
     json := Rejected "Unexpected token '<' is not valid JSON" |}.

(** A response with status 200 whose body is this JSON document. *)
Definition document (v : value) : Response :=
  {| status := 200; text := Fulfilled []; json := Fulfilled v |}.

(** A response with an error status and an empty body. *)
Definition failing (st : Z) : Response :=
  {| status := st; text := Fulfilled [];
     json := Rejected "Unexpected end of JSON input" |}.

Definition serve (sge comex fx : Settled Response) : Env :=
  {| net := fun url =>
       if (url =? Aggregator.SGE_URL)%string then sge
       else if (url =? Aggregator.COMEX_URL)%string then comex
       else if (url =? Aggregator.FX_URL)%string then fx
       else Rejected "fetch failed";
     clock := "2025-01-01T00:00:00.000Z" |}.

Definition quotes (latest : string) : list Row :=
  [ [];
    ["Au(T+D)"; "780.15"; "782.00"; "776.50"; "777.00"];
    ["Ag(T+D)"; latest; "9900.0"; "9800.0"; "9850.0"] ].

Definition spot (xag : value) : value :=
  Obj [("ts", Num 1735689600000);
       ("date", Str "Jan 1st 2025, 12:00:00 am NY");
       ("items", Arr [Obj [("curr", Str "USD"); ("xagPrice", xag);
                          ("chgXag", Num 0.25); ("pcXag", Num 0.58);
                          ("xagClose", Num 43.25)]])].

Definition rates (cny : value) : value :=
  Obj [("result", Str "success"); ("base_code", Str "USD");
       ("rates", Obj [("USD", Num 1); ("CNY", cny)])].

(** All three upstreams answer. *)
Definition all_up : Env :=
  serve (Fulfilled (page (quotes "9875.0")))
        (Fulfilled (document (spot (Num 43.5))))
        (Fulfilled (document (rates (Num 7.15)))).

(** The FX upstream answers 503, the other two answer. *)
Definition fx_down : Env :=
  serve (Fulfilled (page (quotes "9875.0")))
        (Fulfilled (document (spot (Num 43.5))))
        (Fulfilled (failing 503)).

(** No upstream answers. *)
Definition all_down : Env :=
  serve (Fulfilled (failing 502)) (Rejected "This operation was aborted")
        (Fulfilled (failing 503)).

(** The SGE page quotes a negative price. *)
Definition negative_quote : Env :=
  serve (Fulfilled (page (quotes "-5")))
        (Fulfilled (document (spot (Num 43.5))))
        (Fulfilled (document (rates (Num 7.15)))).

(** The FX document carries a negative rate. *)
Definition negative_rate : Env :=
  serve (Fulfilled (page (quotes "9875.0")))
        (Fulfilled (document (spot (Num 43.5))))
        (Fulfilled (document (rates (Num (-7.15))))).

(** The FX document carries the rate [0]. *)
Definition zero_rate : Env :=
  serve (Fulfilled (page (quotes "9875.0")))
        (Fulfilled (document (spot (Num 43.5))))
        (Fulfilled (document (rates (Num 0)))).

(** The FX document carries a rate that is an object with a [toString]
    member. *)
Definition unconvertible_rate : Env :=
  serve (Fulfilled (page (quotes "9875.0")))
        (Fulfilled (document (spot (Num 43.5))))
        (Fulfilled (document (rates (Obj [("toString", Str "7.15")])))).

(** The COMEX document carries the price [0]. *)
Definition zero_price : Env :=
  serve (Fulfilled (page (quotes "9875.0")))
        (Fulfilled (document (spot (Num 0))))
        (Fulfilled (document (rates (Num 7.15)))).

(** The COMEX document has no item. *)
Definition no_items : Env :=
  serve (Fulfilled (page (quotes "9875.0")))
        (Fulfilled (document (Obj [("items", Arr [])])))
        (Fulfilled (document (rates (Num 7.15)))).

(** The FX document has no [rates] member. *)
Definition no_rates : Env :=
  serve (Fulfilled (page (quotes "9875.0")))
        (Fulfilled (document (spot (Num 43.5))))
        (Fulfilled (document (Obj [("result", Str "error")]))).

End Upstream.

(** * Properties *)

(** ** The runtime *)

Module JSFacts.
Import JS.

(** *** The model on inputs whose results the language fixes *)

Example trim_label : trim (String "009" (String "032" "Ag(T+D) ")) = "Ag(T+D)".
Proof. reflexivity. Qed.

Example parseFloat_price : parseFloat "9875.0" = 9875%float.
Proof. vm_compute. reflexivity. Qed.

Example parseFloat_prefix : parseFloat "  -12.5e2 kg" = (-1250)%float.
Proof. vm_compute. reflexivity. Qed.

Example parseFloat_nearest : parseFloat "7.15" = 7.15%float.
Proof. vm_compute. reflexivity. Qed.

Example parseFloat_text : parseFloat "--" = nan /\ parseFloat "" = nan.
Proof. split; vm_compute; reflexivity. Qed.

Example parseFloat_zero : parseFloat "0.0" = 0%float /\ parseFloat "-0" = (-0)%float.
Proof. split; vm_compute; reflexivity. Qed.

Example toFixed_half : toFixed 2.5 0 = Some "3" /\ toFixed (-2.5) 0 = Some "-3".
Proof. split; vm_compute; reflexivity. Qed.

Example toFixed_below_half : toFixed 1.005 2 = Some "1.00".
Proof. vm_compute. reflexivity. Qed.

Example toFixed_padding : toFixed 0.000001 7 = Some "0.0000010".
Proof. vm_compute. reflexivity. Qed.

Example toFixed_large : toFixed 1e21 2 = None.
Proof. vm_compute. reflexivity. Qed.

Example ToNumber_text :
  map ToNumber [Str " 7.15 "; Str "7.15 CNY"; Str ""; Str "0x1F"] =
    map Fulfilled [7.15%float; nan; 0%float; 31%float].
Proof. vm_compute. reflexivity. Qed.

Example ToNumber_structured :
  map ToNumber [Null; Bool true; Arr []; Arr [Num 7.15]; Arr [Num 1; Num 2]; Obj []] =
    map Fulfilled [0%float; 1%float; 0%float; 7.15%float; nan; nan] /\
  ToNumber (Obj [("toString", Num 7.15)]) =
    Rejected "Cannot convert object to primitive value".
Proof. split; vm_compute; reflexivity. Qed.

Example truthy_falsy :
  map truthy [Undefined; Null; Bool false; Num 0; Num (-0); Num nan; Str ""] =
    [false; false; false; false; false; false; false] /\
  map truthy [Bool true; Num (-7.15); Str "0"; Arr []; Obj []] =
    [true; true; true; true; true].
Proof. split; vm_compute; reflexivity. Qed.

(** *** Member access *)

Lemma get_run v k env log :
  get v k env log = (outcome (get v k) env, log).
Proof. destruct v; reflexivity. Qed.

Lemma get_truthy v k env log :
  truthy v = true -> get v k env log = (Fulfilled (member v k), log).
Proof. destruct v; cbn; intros H; try discriminate; reflexivity. Qed.

Lemma get_defined v k :
  v <> Undefined -> v <> Null -> get v k = ret (member v k).
Proof. destruct v; intros; try contradiction; reflexivity. Qed.

(** *** Reading back what [toFixed] writes *)

Lemma digits_app a : forall rest acc cnt,
  all_digits a = true -> no_digit_ahead rest = true ->
  digits (a ++ rest) acc cnt = (numeral a acc, cnt + Z.of_nat (String.length a), rest).
Proof.
  induction a as [|c a IH]; intros rest acc cnt Ha Hr.
  - cbn [append numeral String.length]. rewrite Z.add_0_r.
    destruct rest as [|c r]; [reflexivity|].
    cbn in Hr |- *. destruct (digit_of c); [discriminate|reflexivity].
  - cbn [append digits numeral all_digits String.length] in *.
    destruct (digit_of c) as [d|]; [|discriminate].
    rewrite IH by assumption. f_equal. f_equal. lia.
Qed.

Lemma numeral_app a : forall b acc,
  all_digits a = true -> numeral (a ++ b) acc = numeral b (numeral a acc).
Proof.
  induction a as [|c a IH]; intros b acc Ha; [reflexivity|].
  cbn [append numeral all_digits] in *.
  destruct (digit_of c); [|discriminate]. now apply IH.
Qed.

Lemma all_digits_app a b :
  all_digits (a ++ b) = all_digits a && all_digits b.
Proof.
  induction a as [|c a IH]; [reflexivity|].
  cbn [append all_digits]. destruct (digit_of c); [exact IH|reflexivity].
Qed.

Lemma all_digits_zeros k : all_digits (zeros k) = true.
Proof. induction k; [reflexivity|exact IHk]. Qed.

Lemma numeral_zeros k : numeral (zeros k) 0 = 0.
Proof. induction k; [reflexivity|exact IHk]. Qed.

Lemma length_zeros k : String.length (zeros k) = k.
Proof. induction k; cbn; congruence. Qed.

Lemma all_digits_uint u : all_digits (NilEmpty.string_of_uint u) = true.
Proof. induction u; cbn; assumption || reflexivity. Qed.

Lemma numeral_uint_acc u : forall acc,
  numeral (NilEmpty.string_of_uint u) (Zpos acc) = Zpos (Pos.of_uint_acc u acc).
Proof.
  induction u; intros acc; cbn [NilEmpty.string_of_uint numeral Pos.of_uint_acc];
    try reflexivity;
    change (digit_of _) with (Some 0) || change (digit_of _) with (Some 1)
    || change (digit_of _) with (Some 2) || change (digit_of _) with (Some 3)
    || change (digit_of _) with (Some 4) || change (digit_of _) with (Some 5)
    || change (digit_of _) with (Some 6) || change (digit_of _) with (Some 7)
    || change (digit_of _) with (Some 8) || change (digit_of _) with (Some 9);
    cbv iota; rewrite <- IHu; f_equal; lia.
Qed.

Lemma numeral_uint u :
  numeral (NilEmpty.string_of_uint u) 0 = Z.of_N (Pos.of_uint u).
Proof.
  induction u; cbn [NilEmpty.string_of_uint numeral Pos.of_uint];
    try reflexivity; try exact IHu;
    change (digit_of _) with (Some 1)
    || change (digit_of _) with (Some 2) || change (digit_of _) with (Some 3)
    || change (digit_of _) with (Some 4) || change (digit_of _) with (Some 5)
    || change (digit_of _) with (Some 6) || change (digit_of _) with (Some 7)
    || change (digit_of _) with (Some 8) || change (digit_of _) with (Some 9);
    cbv iota; apply (numeral_uint_acc u).
Qed.

Lemma substring_all s : substring 0 (String.length s) s = s.
Proof. induction s as [|c s IH]; [reflexivity|]. cbn. now rewrite IH. Qed.

Lemma substring_split s : forall k d,
  String.length s = (k + d)%nat ->
  s = substring 0 k s ++ substring k d s /\
  String.length (substring 0 k s) = k /\ String.length (substring k d s) = d.
Proof.
  induction s as [|c s IH]; intros k d H.
  - destruct k, d; try discriminate. repeat split.
  - destruct k as [|k].
    + cbn [plus] in H. subst d.
      change (substring 0 0 (String c s)) with "".
      rewrite substring_all. repeat split.
    + cbn in H. injection H as H.
      destruct (IH k d H) as (E & L1 & L2).
      cbn [substring append String.length].
      repeat split; [now rewrite <- E | now rewrite L1 | exact L2].
Qed.

Lemma digit_head c r :
  digit_of c <> None ->
  trimStart (String c r) = String c r /\
  sign (String c r) = (false, String c r) /\
  prefix "Infinity" (String c r) = false /\
  no_digit_ahead (String c r) = false.
Proof.
  destruct c as [[] [] [] [] [] [] [] []]; intros H;
    try (now elim H); repeat split.
Qed.

Lemma decimal_string n :
  0 <= n ->
  let ds := NilZero.string_of_uint (N.to_uint (Z.to_N n)) in
  all_digits ds = true /\ numeral ds 0 = n /\ ds <> "".
Proof.
  intros Hn. cbv zeta.
  destruct n as [|p|p]; [repeat split; discriminate | | lia].
  cbn [Z.to_N N.to_uint].
  pose proof (DecimalPos.Unsigned.to_uint_nonnil p) as Hnil.
  pose proof (DecimalPos.Unsigned.of_to p) as Hval.
  pose proof (all_digits_uint (Pos.to_uint p)) as Hall.
  pose proof (numeral_uint (Pos.to_uint p)) as Hnum.
  rewrite Hval in Hnum.
  destruct (Pos.to_uint p) as [|u|u|u|u|u|u|u|u|u|u];
    [now elim Hnil | | | | | | | | | |];
    (split; [exact Hall | split; [exact Hnum | discriminate]]).
Qed.

Lemma append_empty a : (a ++ "")%string = a.
Proof. induction a as [|c a IH]; [reflexivity|]. cbn. now rewrite IH. Qed.

Lemma sign_fixed (neg : bool) c r :
  digit_of c <> None ->
  sign (trimStart (if neg then String "-" (String c r) else String c r)) = (neg, String c r).
Proof.
  intros Hc. destruct neg; [reflexivity|].
  destruct (digit_head c r Hc) as (-> & -> & _). reflexivity.
Qed.

Lemma length_nonempty a : a <> "" -> (1 <= String.length a)%nat.
Proof. destruct a; [now intros H; elim H | cbn; lia]. Qed.

Lemma parse_fraction (neg : bool) a b :
  all_digits a = true -> a <> "" -> all_digits b = true ->
  parseFloat (if neg then ("-" ++ a ++ "." ++ b)%string else (a ++ "." ++ b)%string) =
    decimal_value neg (numeral (a ++ b) 0) (- Z.of_nat (String.length b)).
Proof.
  intros Ha Hne Hb.
  pose proof (length_nonempty a Hne) as Hlen.
  assert (Hd1 : digits (a ++ "." ++ b) 0 0 =
                (numeral a 0, 0 + Z.of_nat (String.length a), "." ++ b))
    by (apply digits_app; [assumption | reflexivity]).
  assert (Hd2 : digits b (numeral a 0) 0 =
                (numeral b (numeral a 0), 0 + Z.of_nat (String.length b), ""))
    by (rewrite <- (append_empty b) at 1; apply digits_app; [assumption | reflexivity]).
  rewrite numeral_app by assumption.
  destruct a as [|c r]; [now elim Hne|].
  assert (Hc : digit_of c <> None)
    by (cbn in Ha; destruct (digit_of c); discriminate).
  unfold parseFloat, read_decimal.
  change (String c r ++ "." ++ b) with (String c (r ++ "." ++ b)) in *.
  change ("-" ++ String c (r ++ "." ++ b))%string with (String "-" (String c (r ++ "." ++ b))).
  rewrite sign_fixed by assumption.
  destruct (digit_head c (r ++ "." ++ b) Hc) as (_ & _ & -> & _).
  rewrite Hd1. cbn [append]. rewrite Hd2.
  destruct (0 + Z.of_nat (String.length (String c r)) + (0 + Z.of_nat (String.length b)) =? 0) eqn:E;
    [apply Z.eqb_eq in E; lia|].
  reflexivity.
Qed.

Lemma parse_integer (neg : bool) a :
  all_digits a = true -> a <> "" ->
  parseFloat (if neg then ("-" ++ a)%string else a) = decimal_value neg (numeral a 0) 0.
Proof.
  intros Ha Hne.
  pose proof (length_nonempty a Hne) as Hlen.
  assert (Hd1 : digits a 0 0 = (numeral a 0, 0 + Z.of_nat (String.length a), ""))
    by (rewrite <- (append_empty a) at 1; apply digits_app; [assumption | reflexivity]).
  destruct a as [|c r]; [now elim Hne|].
  assert (Hc : digit_of c <> None)
    by (cbn in Ha; destruct (digit_of c); discriminate).
  unfold parseFloat, read_decimal.
  change ("-" ++ String c r)%string with (String "-" (String c r)).
  rewrite sign_fixed by assumption.
  destruct (digit_head c r Hc) as (_ & _ & -> & _).
  rewrite Hd1.
  destruct (0 + Z.of_nat (String.length (String c r)) + 0 =? 0) eqn:E;
    [apply Z.eqb_eq in E; lia|].
  reflexivity.
Qed.

Lemma length_app a b :
  String.length (a ++ b) = (String.length a + String.length b)%nat.
Proof. induction a as [|c a IH]; [reflexivity|]. cbn. now rewrite IH. Qed.

Lemma parse_fixed (neg : bool) n d :
  0 <= n ->
  parseFloat (fixed_string neg n d) = decimal_value neg n (- Z.of_nat d).
Proof.
  intros Hn. unfold fixed_string.
  destruct (decimal_string n Hn) as (Hall & Hnum & Hne).
  set (ds := NilZero.string_of_uint (N.to_uint (Z.to_N n))) in *.
  set (ps := (zeros (S d - String.length ds) ++ ds)%string).
  assert (Hps : all_digits ps = true)
    by (unfold ps; rewrite all_digits_app, all_digits_zeros, Hall; reflexivity).
  assert (Hval : numeral ps 0 = n)
    by (unfold ps; rewrite numeral_app, numeral_zeros by apply all_digits_zeros;
        exact Hnum).
  assert (Hlen : (S d <= String.length ps)%nat).
  { unfold ps. rewrite length_app, length_zeros. lia. }
  destruct d as [|d'].
  - rewrite parse_integer; [now rewrite Hval | assumption |].
    intros E. rewrite E in Hlen. cbn in Hlen. lia.
  - set (d := S d') in *.
    assert (Hk : String.length ps = (String.length ps - d + d)%nat)
      by lia.
    destruct (substring_split ps (String.length ps - d) d Hk) as (E & L1 & L2).
    set (a := substring 0 (String.length ps - d) ps) in *.
    set (b := substring (String.length ps - d) d ps) in *.
    assert (Hab : all_digits a = true /\ all_digits b = true)
      by (apply andb_prop; rewrite <- all_digits_app, <- E; exact Hps).
    destruct Hab as [Ha Hb].
    rewrite parse_fraction; try assumption.
    + rewrite <- E, Hval, L2. reflexivity.
    + intros Ea. assert (Hz : String.length a = 0%nat) by (now rewrite Ea).
      clearbody a ps d. lia.
Qed.

Lemma round_half_up_nonneg m e d : 0 <= round_half_up m e d.
Proof.
  unfold round_half_up.
  assert (H10 : 0 <= 10 ^ Z.of_nat d) by (apply Z.pow_nonneg; lia).
  assert (Hs : 0 <= Z.pos m * 10 ^ Z.of_nat d) by (apply Z.mul_nonneg_nonneg; lia).
  destruct (Z.leb_spec 0 e) as [He|He].
  - apply Z.mul_nonneg_nonneg; [exact Hs | apply Z.pow_nonneg; lia].
  - apply Z.div_pos.
    + assert (0 <= 2 ^ (- e)) by (apply Z.pow_nonneg; lia). lia.
    + apply Z.pow_pos_nonneg; lia.
Qed.

(** [round_half_up m e d] is the integer nearest to [m * 2^e * 10^d], the
    larger one when two are as near. *)
Lemma round_half_up_nearest m e d :
  let n := round_half_up m e d in
  if 0 <=? e then n = Z.pos m * 2 ^ e * 10 ^ Z.of_nat d
  else 2 ^ (- e) * (2 * n - 1) <= 2 * (Z.pos m * 10 ^ Z.of_nat d)
       /\ 2 * (Z.pos m * 10 ^ Z.of_nat d) < 2 ^ (- e) * (2 * n + 1).
Proof.
  cbv zeta. unfold round_half_up.
  destruct (Z.leb_spec 0 e) as [He|He]; [ring|].
  assert (Hp : 0 < 2 ^ (- e)) by (apply Z.pow_pos_nonneg; lia).
  replace (2 ^ (1 - e)) with (2 * 2 ^ (- e))
    by (replace (1 - e) with (Z.succ (- e)) by lia; rewrite Z.pow_succ_r by lia; ring).
  set (p := 2 ^ (- e)) in *. set (a := Z.pos m * 10 ^ Z.of_nat d).
  pose proof (Z.div_mod (2 * a + p) (2 * p) ltac:(lia)) as Hdm.
  pose proof (Z.mod_pos_bound (2 * a + p) (2 * p) ltac:(lia)) as Hb.
  nia.
Qed.

Lemma parseFloat_toFixed_rounded x d : parseFloat_toFixed x d = rounded d x.
Proof.
  unfold parseFloat_toFixed, toFixed, rounded.
  pose proof (SF2Prim_Prim2SF x) as Hx.
  destruct (Prim2SF x) as [s|s| |s m e].
  - apply (parse_fixed false 0 d). lia.
  - subst x. destruct s; reflexivity.
  - subst x. reflexivity.
  - destruct (1e21 <=? abs x)%float; [reflexivity|].
    apply parse_fixed, round_half_up_nonneg.
Qed.

End JSFacts.

(** ** The aggregator *)

Module AggregatorFacts.
Import JS JSFacts Aggregator.

Ltac run :=
  unfold outcome, fetchWithTimeout, fetch, bind, settle, await, now, ret, throw, get;
  cbn [fst snd app].

(** Each adapter issues exactly one request, and its outcome does not depend
    on the requests made before it. *)

Lemma fetchSGE_run env log :
  fetchSGE env log = (outcome fetchSGE env, (log ++ [SGE_URL])%list).
Proof.
  unfold fetchSGE; run.
  destruct (net env SGE_URL) as [res|e]; [|reflexivity].
  destruct (ok res); cbn; [|reflexivity].
  destruct (text res) as [rows|e]; [|reflexivity].
  destruct (scan rows); reflexivity.
Qed.

Lemma fetchCOMEX_run env log :
  fetchCOMEX env log = (outcome fetchCOMEX env, (log ++ [COMEX_URL])%list).
Proof.
  unfold fetchCOMEX, outcome, fetchWithTimeout, fetch, bind, await, now.
  destruct (net env COMEX_URL) as [res|e]; [|reflexivity].
  destruct (ok res); cbn -[get]; [|reflexivity].
  destruct (json res) as [data|e]; [|reflexivity].
  rewrite (get_run data "items" env (log ++ _)), (get_run data "items" env [_]).
  unfold outcome. cbn [fst].
  destruct (fst (get data "items" env [])) as [items|e]; [|reflexivity].
  destruct (truthy items) eqn:Hitems.
  - rewrite !(get_truthy items "0") by assumption.
    destruct (truthy (member items "0")) eqn:Hitem; [|reflexivity].
    rewrite !(get_truthy _ "xagPrice") by assumption.
    cbn [negb orb].
    destruct (truthy (member (member items "0") "xagPrice")); [|reflexivity].
    cbn [negb].
    rewrite !(get_truthy _ "chgXag"), !(get_truthy _ "pcXag"),
      !(get_truthy _ "xagClose") by assumption.
    rewrite (get_run data "date" env (log ++ _)), (get_run data "date" env [_]).
    unfold outcome. cbn [fst].
    destruct (fst (get data "date" env [])); reflexivity.
  - unfold ret. rewrite Hitems. reflexivity.
Qed.

Lemma fetchFX_run env log :
  fetchFX env log = (outcome fetchFX env, (log ++ [FX_URL])%list).
Proof.
  unfold fetchFX, outcome, fetchWithTimeout, fetch, bind, await.
  destruct (net env FX_URL) as [res|e]; [|reflexivity].
  destruct (ok res); cbn -[get]; [|reflexivity].
  destruct (json res) as [data|e]; [|reflexivity].
  rewrite (get_run data "rates" env (log ++ _)), (get_run data "rates" env [_]).
  unfold outcome. cbn [fst].
  destruct (fst (get data "rates" env [])) as [rates|e]; [|reflexivity].
  destruct (truthy rates) eqn:Hrates.
  - rewrite !(get_truthy rates "CNY") by assumption.
    destruct (truthy (member rates "CNY")); reflexivity.
  - unfold ret. rewrite Hrates. reflexivity.
Qed.

(** Whatever the three upstreams do, the handler issues the three requests;
    it answers with the payload of the cycle, and rejects only when the
    assembly does. *)
Lemma handler_run method env log :
  method <> "OPTIONS" ->
  handler method env log =
    (match cycle env with
     | Fulfilled result => Fulfilled (reply_of result)
     | Rejected e => Rejected e
     end,
     (log ++ [SGE_URL; COMEX_URL; FX_URL])%list).
Proof.
  intros Hm. unfold handler.
  destruct (String.eqb_spec method "OPTIONS") as [E|_]; [contradiction|].
  unfold bind at 1, now, bind at 1, settle at 1.
  rewrite fetchSGE_run.
  unfold bind at 1, settle at 1. rewrite fetchCOMEX_run.
  unfold bind at 1, settle at 1. rewrite fetchFX_run.
  unfold bind, await, ret, cycle, reply_of. rewrite <- !app_assoc.
  destruct (assemble _ _ _ _); reflexivity.
Qed.

(** The pre-flight request is answered at once, with no request upstream. *)
Lemma preflight env log :
  handler "OPTIONS" env log =
    (Fulfilled {| code := 200; headers := CORS; body := None |}, log).
Proof. reflexivity. Qed.

(** *** The assembly in closed form *)

Lemma assemble_payload iso sgeR comexR fxR :
  assemble iso sgeR comexR fxR =
    if crashes sgeR comexR fxR
    then Rejected "Cannot convert object to primitive value"
    else Fulfilled (payload iso sgeR comexR fxR).
Proof.
  destruct sgeR as [q|e1], comexR as [c|e2], fxR as [rate|e3];
    try reflexivity;
    unfold assemble, crashes, payload, process_sge, process_fx, process_comex;
    cbn [fx set_fx set_comex push_error usd_cny comex set_sge];
    unfold convert, premium_of, ToNumber.
  - destruct (throws rate); [reflexivity|]. cbn [orb].
    destruct (throws (price c)); reflexivity.
  - destruct (throws rate); reflexivity.
Qed.

Lemma assemble_settles iso sgeR comexR fxR :
  crashes sgeR comexR fxR = false ->
  exists result, assemble iso sgeR comexR fxR = Fulfilled result.
Proof.
  intros H. rewrite assemble_payload, H. now eexists.
Qed.

Lemma assemble_fulfilled iso sgeR comexR fxR result :
  assemble iso sgeR comexR fxR = Fulfilled result ->
  result = payload iso sgeR comexR fxR.
Proof.
  rewrite assemble_payload. destruct (crashes sgeR comexR fxR); [discriminate|].
  now intros [= <-].
Qed.

(** Only an object or an array can make a conversion throw, so feeds whose
    rate and price are numbers or strings never make the assembly reject. *)
Lemma throws_scalar v :
  match v with Obj _ | Arr _ => False | _ => True end -> throws v = false.
Proof. destruct v; intros H; try reflexivity; contradiction. Qed.

Lemma crashes_convertible sgeR comexR fxR :
  (forall rate, fxR = Fulfilled rate -> throws rate = false) ->
  (forall c, comexR = Fulfilled c -> throws (price c) = false) ->
  crashes sgeR comexR fxR = false.
Proof.
  intros Hfx Hcomex. unfold crashes.
  destruct sgeR as [q|e]; [|reflexivity].
  destruct fxR as [rate|e]; [|reflexivity].
  rewrite (Hfx rate eq_refl). cbn [orb].
  destruct comexR as [c|e]; [|reflexivity]. now apply Hcomex.
Qed.

(** With such a rate the handler rejects, after the three requests. *)
Example unconvertible_rate_rejects :
  handler "GET" Upstream.unconvertible_rate [] =
    (Rejected "Cannot convert object to primitive value",
     [SGE_URL; COMEX_URL; FX_URL]).
Proof. vm_compute. reflexivity. Qed.

Lemma handler_answers method env log reply :
  method <> "OPTIONS" ->
  fst (handler method env log) = Fulfilled reply ->
  exists result, cycle env = Fulfilled result /\ reply = reply_of result.
Proof.
  intros Hm. rewrite (handler_run _ _ _ Hm). cbn [fst].
  destruct (cycle env) as [result|e]; [|discriminate].
  intros [= <-]. now exists result.
Qed.

(** *** Failure isolation *)

(** C1, as the code has it: whatever the three upstreams do, the cycle
    issues all three requests and keeps each adapter's outcome.  In the
    composite result, a fulfilled COMEX outcome and a fulfilled FX outcome
    each appear whatever the other two adapters did.  A fulfilled SGE outcome
    appears whatever COMEX did, provided FX is fulfilled too; when FX is
    rejected the quote is withheld and reported as
    "Cannot convert without FX rate". *)
Theorem isolation method env log :
  method <> "OPTIONS" ->
  snd (handler method env log) = (log ++ [SGE_URL; COMEX_URL; FX_URL])%list /\
  (crashes (outcome fetchSGE env) (outcome fetchCOMEX env) (outcome fetchFX env) = false ->
   exists reply, fst (handler method env log) = Fulfilled reply) /\
  (forall reply,
     fst (handler method env log) = Fulfilled reply ->
     exists result,
       body reply = Some result /\
       (forall c, outcome fetchCOMEX env = Fulfilled c -> comex result = Some c) /\
       (forall v, outcome fetchFX env = Fulfilled v ->
          fx result = Some {| usd_cny := v |}) /\
       (forall q v,
          outcome fetchSGE env = Fulfilled q -> outcome fetchFX env = Fulfilled v ->
          exists entry,
            sge result = Some entry /\ rmb_per_kg entry = latest q /\
            rmb_high entry = high q /\ rmb_low entry = low q /\
            rmb_open entry = open q) /\
       (forall q e,
          outcome fetchSGE env = Fulfilled q -> outcome fetchFX env = Rejected e ->
          sge result = None /\
          In {| source := "sge"; message := "Cannot convert without FX rate" |}
             (errors result))).
Proof.
  intros Hm. split; [|split].
  - rewrite (handler_run _ _ _ Hm). reflexivity.
  - intros Hc. rewrite (handler_run _ _ _ Hm). unfold cycle.
    destruct (assemble_settles (clock env) _ _ _ Hc) as [result ->].
    now eexists.
  - intros reply Hr.
    destruct (handler_answers _ _ _ _ Hm Hr) as (result & Hcy & ->).
    exists result. split; [reflexivity|].
    apply assemble_fulfilled in Hcy. subst result. unfold payload.
    cbn [comex fx sge errors]. split; [|split; [|split]].
    + intros c ->. reflexivity.
    + intros v ->. reflexivity.
    + intros q v -> ->. eexists. repeat split; reflexivity.
    + intros q e -> ->. split; [reflexivity|].
      apply in_or_app; right. apply in_or_app; right. left; reflexivity.
Qed.

Lemma isolation_example :
  "GET" <> "OPTIONS" /\
  exists reply result,
    fst (handler "GET" Upstream.fx_down []) = Fulfilled reply /\
    snd (handler "GET" Upstream.fx_down []) = [SGE_URL; COMEX_URL; FX_URL] /\
    body reply = Some result /\
    comex result = outcome_value (outcome fetchCOMEX Upstream.fx_down) /\
    sge result = None /\
    In {| source := "sge"; message := "Cannot convert without FX rate" |}
       (errors result).
Proof.
  split; [discriminate|].
  destruct (isolation "GET" Upstream.fx_down []) as (Hlog & Hex & Hall);
    [discriminate|].
  destruct (Hex eq_refl) as [reply Hr].
  destruct (Hall reply Hr) as (result & Hbody & Hcomex & _ & _ & Hsge).
  exists reply, result.
  split; [exact Hr|]. split; [exact Hlog|]. split; [exact Hbody|].
  split; [apply Hcomex; vm_compute; reflexivity|].
  eapply Hsge; vm_compute; reflexivity.
Defined.

(** C1 as stated fails: with SGE and COMEX fulfilled and FX answering 503,
    the fulfilled SGE quote does not appear in the payload. *)
Lemma fx_failure_withholds_sge :
  outcome fetchSGE Upstream.fx_down =
    Fulfilled {| latest := 9875; high := 9900; low := 9800; open := Some 9850%float |} /\
  outcome fetchFX Upstream.fx_down = Rejected "FX HTTP 503" /\
  exists reply result,
    handler "GET" Upstream.fx_down [] =
      (Fulfilled reply, [SGE_URL; COMEX_URL; FX_URL]) /\
    body reply = Some result /\ sge result = None.
Proof.
  split; [vm_compute; reflexivity|]. split; [vm_compute; reflexivity|].
  eexists; eexists. repeat split; vm_compute; reflexivity.
Qed.

(** *** Presence of [sge] *)

(** C3: in every composite result, [sge] is present exactly when the SGE
    adapter is fulfilled and [fx] is present; with the SGE adapter fulfilled
    and [fx] absent, [sge] is absent and the errors hold the entry
    [sge: "Cannot convert without FX rate"].  (A composite result there is,
    unless a conversion to a number throws.) *)
Theorem sge_present_iff iso sgeR comexR fxR :
  (crashes sgeR comexR fxR = false ->
   exists result, assemble iso sgeR comexR fxR = Fulfilled result) /\
  (forall result,
     assemble iso sgeR comexR fxR = Fulfilled result ->
     (sge result <> None <->
        (exists q, sgeR = Fulfilled q) /\ fx result <> None) /\
     (forall q, sgeR = Fulfilled q -> fx result = None ->
        sge result = None /\
        In {| source := "sge"; message := "Cannot convert without FX rate" |}
           (errors result))).
Proof.
  split; [apply assemble_settles|].
  intros result Hr. apply assemble_fulfilled in Hr. subst result.
  unfold payload. cbn [sge fx errors].
  split; [split|].
  - destruct sgeR as [q|e], fxR as [v|e']; intros H; try (now elim H).
    split; [now exists q | discriminate].
  - intros [[q ->] Hfx]. destruct fxR as [v|e]; [discriminate | now elim Hfx].
  - intros q -> Hfx. destruct fxR as [v|e]; [discriminate|].
    split; [reflexivity|].
    apply in_or_app; right. apply in_or_app; right. now left.
Qed.

(** *** The premium *)

(** C4: in every composite result, [premium] is present exactly when [sge]
    and [comex] both are, and then [usd] is [usd_per_oz - price] rounded to
    4 decimal places and [percent] is [(usd_per_oz - price) / price * 100]
    rounded to 2, the price converted to a number. *)
Theorem premium_present_iff iso sgeR comexR fxR :
  (crashes sgeR comexR fxR = false ->
   exists result, assemble iso sgeR comexR fxR = Fulfilled result) /\
  (forall result,
     assemble iso sgeR comexR fxR = Fulfilled result ->
     (premium result <> None <-> sge result <> None /\ comex result <> None) /\
     (forall entry c p,
        sge result = Some entry -> comex result = Some c -> premium result = Some p ->
        usd p = rounded 4 (usd_per_oz entry - number_of (price c)) /\
        percent p =
          rounded 2
            ((usd_per_oz entry - number_of (price c)) / number_of (price c) * 100))).
Proof.
  split; [apply assemble_settles|].
  intros result Hr. apply assemble_fulfilled in Hr. subst result.
  unfold payload. cbn [sge comex premium outcome_value].
  destruct sgeR as [q|e1], comexR as [c0|e2], fxR as [v|e3];
    (split; [split; [intros H; try (now elim H); split; discriminate
                    | intros [H1 H2]; try discriminate; try (now elim H1); now elim H2]
            | intros entry c p Hs Hc Hp; try discriminate]).
  injection Hs as <-. injection Hc as <-. injection Hp as <-.
  split; apply parseFloat_toFixed_rounded.
Qed.

(** *** The status of the answer *)

(** C5: every answer is 502 exactly when [comex] and [sge] are both absent
    from its composite result, and 200 otherwise; when the three adapters are
    all rejected the handler does answer, with 502 and exactly three
    errors. *)
Theorem gateway_failure_iff method env log :
  method <> "OPTIONS" ->
  (forall reply,
     fst (handler method env log) = Fulfilled reply ->
     exists result,
       body reply = Some result /\
       (code reply = 502 <-> comex result = None /\ sge result = None) /\
       (code reply <> 502 -> code reply = 200)) /\
  (is_rejected (outcome fetchSGE env) = true ->
   is_rejected (outcome fetchCOMEX env) = true ->
   is_rejected (outcome fetchFX env) = true ->
   exists reply result,
     fst (handler method env log) = Fulfilled reply /\
     body reply = Some result /\
     code reply = 502 /\ List.length (errors result) = 3%nat).
Proof.
  intros Hm. split.
  - intros reply Hr.
    destruct (handler_answers _ _ _ _ Hm Hr) as (result & _ & ->).
    exists result. split; [reflexivity|].
    cbn [code reply_of]. unfold status_of.
    destruct (comex result), (sge result);
      (split; [split; [intros H; try discriminate; now split
                      | intros [H1 H2]; try discriminate; reflexivity]
              | intros H; try reflexivity; now elim H]).
  - intros H1 H2 H3. rewrite (handler_run _ _ _ Hm). unfold cycle.
    destruct (outcome fetchSGE env) as [q|e1]; [discriminate|].
    destruct (outcome fetchCOMEX env) as [c|e2]; [discriminate|].
    destruct (outcome fetchFX env) as [v|e3]; [discriminate|].
    eexists; eexists. repeat split.
Qed.

Lemma gateway_failure_example :
  "GET" <> "OPTIONS" /\
  exists reply result,
    fst (handler "GET" Upstream.all_down []) = Fulfilled reply /\
    body reply = Some result /\
    code reply = 502 /\ List.length (errors result) = 3%nat.
Proof.
  split; [discriminate|].
  destruct (gateway_failure_iff "GET" Upstream.all_down []) as (_ & Hall);
    [discriminate|].
  exact (Hall eq_refl eq_refl eq_refl).
Defined.

(** *** The order of the errors *)

(** C7, as the code has it: in every composite result the sources of the
    errors are, in this order, [comex] when COMEX is rejected, [fx] when FX
    is rejected, and [sge] when SGE is rejected or FX is. *)
Theorem errors_order iso sgeR comexR fxR :
  (crashes sgeR comexR fxR = false ->
   exists result, assemble iso sgeR comexR fxR = Fulfilled result) /\
  (forall result,
     assemble iso sgeR comexR fxR = Fulfilled result ->
     map source (errors result) =
       ((if is_rejected comexR then ["comex"] else []) ++
        (if is_rejected fxR then ["fx"] else []) ++
        (if is_rejected sgeR || is_rejected fxR then ["sge"] else []))%list).
Proof.
  split; [apply assemble_settles|].
  intros result Hr. apply assemble_fulfilled in Hr. subst result.
  destruct sgeR, comexR, fxR; reflexivity.
Qed.

(** C7 as stated fails: with the three adapters rejected, the [fx] entry
    comes after the [comex] entry, not before it. *)
Lemma fx_error_follows_comex_error :
  option_map (fun result => map source (errors result))
    (outcome_value (assemble "" (Rejected "a") (Rejected "b") (Rejected "c"))) =
    Some ["comex"; "fx"; "sge"] /\
  option_map (fun result => map source (errors result))
    (outcome_value (cycle Upstream.all_down)) = Some ["comex"; "fx"; "sge"].
Proof. split; vm_compute; reflexivity. Qed.

(** *** The SGE parser *)

Lemma scan_row_priced result cells :
  scan_row result cells = if priced cells then Some (quote_of cells) else result.
Proof.
  unfold scan_row, priced, quote_of.
  destruct (4 <=? List.length cells)%nat; [|reflexivity].
  destruct (cell cells 0 =? "Ag(T+D)")%string; [|reflexivity].
  cbn [andb].
  destruct (truthy_num (parseFloat (cell cells 1)) && (0 <? parseFloat (cell cells 1))%float);
    reflexivity.
Qed.

Lemma fold_scan_row rows : forall acc,
  fold_left scan_row rows acc =
    match rev (filter priced rows) with
    | cells :: _ => Some (quote_of cells)
    | [] => acc
    end.
Proof.
  induction rows as [|cells rows IH]; intros acc; [reflexivity|].
  cbn [fold_left filter]. rewrite IH, scan_row_priced.
  destruct (priced cells); [|reflexivity].
  cbn [rev]. destruct (rev (filter priced rows)); reflexivity.
Qed.

Lemma scan_app rows cells :
  scan (rows ++ [cells]) = scan_row (scan rows) cells.
Proof. unfold scan. rewrite fold_left_app. reflexivity. Qed.

Lemma scan_positive rows q :
  scan rows = Some q -> truthy_num (latest q) = true /\ (0 <? latest q)%float = true.
Proof.
  unfold scan. rewrite fold_scan_row.
  pose proof (filter_In priced) as Hf.
  destruct (rev (filter priced rows)) as [|cells l] eqn:E; [discriminate|].
  intros [= <-].
  assert (Hin : In cells (filter priced rows))
    by (apply in_rev; rewrite E; now left).
  apply Hf in Hin. destruct Hin as [_ Hp].
  unfold priced in Hp. apply andb_prop in Hp as [_ Hp].
  apply andb_prop in Hp. exact Hp.
Qed.

Lemma fetchSGE_outcome env res rows :
  net env SGE_URL = Fulfilled res -> ok res = true -> text res = Fulfilled rows ->
  outcome fetchSGE env =
    match scan rows with
    | Some q => Fulfilled q
    | None => Rejected "Ag(T+D) not found or market closed"
    end.
Proof.
  intros Hn Hok Ht. unfold fetchSGE; run. rewrite Hn, Hok; cbn. rewrite Ht.
  destruct (scan rows); reflexivity.
Qed.

(** A page without a priced row is answered with the "market closed"
    error. *)
Lemma fetchSGE_closed env res rows :
  net env SGE_URL = Fulfilled res -> ok res = true -> text res = Fulfilled rows ->
  (forall cells, In cells rows -> priced cells = false) ->
  outcome fetchSGE env = Rejected "Ag(T+D) not found or market closed".
Proof.
  intros Hn Hok Ht Hrows.
  rewrite (fetchSGE_outcome env res rows) by assumption.
  unfold scan. rewrite fold_scan_row.
  replace (filter priced rows) with (@nil Row); [reflexivity|].
  clear - Hrows. induction rows as [|cells rows IH]; [reflexivity|].
  cbn [filter]. rewrite (Hrows cells) by now left.
  apply IH. intros c Hc. apply Hrows. now right.
Qed.

(** Whatever the upstream sends, a quote the adapter returns has a positive
    latest price. *)
Lemma fetchSGE_positive env q :
  outcome fetchSGE env = Fulfilled q ->
  truthy_num (latest q) = true /\ (0 <? latest q)%float = true.
Proof.
  unfold fetchSGE; run.
  destruct (net env SGE_URL) as [res|e]; [|discriminate].
  destruct (ok res); cbn; [|discriminate].
  destruct (text res) as [rows|e]; [|discriminate].
  destruct (scan rows) as [q'|] eqn:E; [|discriminate].
  intros [= <-]. now apply (scan_positive rows).
Qed.

(** C10: the quote is taken from the last row that has four cells or more,
    the label [Ag(T+D)] and a positive latest value; a later row whose latest
    value is zero, not a number or negative leaves the quote as it is. *)
Theorem last_priced_row_wins rows :
  scan rows =
    match rev (filter priced rows) with
    | cells :: _ => Some (quote_of cells)
    | [] => None
    end /\
  (forall cells,
     truthy_num (parseFloat (cell cells 1)) = false \/
     (0 <? parseFloat (cell cells 1))%float = false ->
     scan (rows ++ [cells]) = scan rows) /\
  (forall q, scan rows = Some q -> (0 <? latest q)%float = true).
Proof.
  split; [apply fold_scan_row|]. split.
  - intros cells H. rewrite scan_app, scan_row_priced.
    unfold priced. destruct H as [-> | ->];
      rewrite ?andb_false_r; reflexivity.
  - intros q Hq. now apply (scan_positive rows).
Qed.

(** *** The FX adapter *)

Lemma fetchFX_outcome env res data :
  net env FX_URL = Fulfilled res -> ok res = true -> json res = Fulfilled data ->
  data <> Undefined -> data <> Null ->
  outcome fetchFX env =
    if truthy (cny_of data) then Fulfilled (cny_of data)
    else Rejected "CNY rate not found".
Proof.
  intros Hn Hok Hj Hu Hl.
  unfold fetchFX, cny_of, outcome, fetchWithTimeout, fetch, bind, await.
  rewrite Hn, Hok; cbn -[get]. rewrite Hj.
  rewrite (get_defined data "rates") by assumption. unfold ret at 1.
  destruct (truthy (member data "rates")) eqn:Hrates.
  - rewrite (get_truthy _ "CNY") by assumption.
    destruct (truthy (member (member data "rates") "CNY")); reflexivity.
  - unfold ret at 1. rewrite Hrates. reflexivity.
Qed.

Lemma fetchFX_truthy env v :
  outcome fetchFX env = Fulfilled v -> truthy v = true.
Proof.
  unfold fetchFX, outcome, fetchWithTimeout, fetch, bind, await.
  destruct (net env FX_URL) as [res|e]; [|discriminate].
  destruct (ok res); cbn -[get]; [|discriminate].
  destruct (json res) as [data|e]; [|discriminate].
  rewrite (get_run data "rates"). unfold outcome. cbn [fst].
  destruct (fst (get data "rates" env [])) as [rates|e]; [|discriminate].
  destruct (truthy rates) eqn:Hrates.
  - rewrite (get_truthy rates "CNY") by assumption.
    destruct (truthy (member rates "CNY")) eqn:Hcny; cbn; [|discriminate].
    now intros [= <-].
  - unfold ret. rewrite Hrates. discriminate.
Qed.

(** C8, as the code has it: a value the adapter returns is truthy, so a
    number among them is neither zero nor [NaN] (it may be negative); and on
    a response with a success status and a JSON document, the adapter returns
    [data.rates && data.rates.CNY] when that is truthy and fails with
    "CNY rate not found" exactly when it is falsy. *)
Theorem fx_rate_truthy env :
  (forall v, outcome fetchFX env = Fulfilled v ->
     truthy v = true /\
     forall x, v = Num x -> PrimFloat.is_nan x = false /\ PrimFloat.is_zero x = false) /\
  (forall res data,
     net env FX_URL = Fulfilled res -> ok res = true -> json res = Fulfilled data ->
     data <> Undefined -> data <> Null ->
     (outcome fetchFX env = Rejected "CNY rate not found" <->
        truthy (cny_of data) = false) /\
     (truthy (cny_of data) = true -> outcome fetchFX env = Fulfilled (cny_of data))).
Proof.
  split.
  - intros v Hv. apply fetchFX_truthy in Hv. split; [exact Hv|].
    intros x ->. cbn in Hv. unfold truthy_num in Hv.
    apply negb_true_iff, orb_false_elim in Hv. exact Hv.
  - intros res data Hn Hok Hj Hu Hl.
    rewrite (fetchFX_outcome env res data) by assumption.
    destruct (truthy (cny_of data)); repeat split; intros; try discriminate; reflexivity.
Qed.

(** C8 as stated fails: a negative rate is returned, and a rate that is
    present but [0] is reported as not found. *)
Lemma negative_rate_returned :
  outcome fetchFX Upstream.negative_rate = Fulfilled (Num (-7.15)) /\
  (0 <? -7.15)%float = false /\
  cny_of (Upstream.rates (Num 0)) = Num 0 /\
  outcome fetchFX Upstream.zero_rate = Rejected "CNY rate not found".
Proof. repeat split; vm_compute; reflexivity. Qed.

End AggregatorFacts.

(** ** The standalone endpoint *)

Module ShanghaiFacts.
Import JS JSFacts Shanghai.

Lemma closed_spec x :
  closed (Some x) = PrimFloat.is_nan x || PrimFloat.is_zero x.
Proof.
  unfold closed, truthy_num, PrimFloat.is_zero, PrimFloat.zero.
  destruct (PrimFloat.is_nan x), (x =? 0)%float; reflexivity.
Qed.

(** The handler never rejects: what the [try] block throws is answered by the
    [catch] block with status 500, without any further request. *)
Lemma handler_recovers method env log :
  method <> "OPTIONS" ->
  handler method env log =
    match attempt env log with
    | (Fulfilled reply, log') => (Fulfilled reply, log')
    | (Rejected message, log') => (Fulfilled (error_reply (clock env) message), log')
    end.
Proof.
  intros Hm. unfold handler.
  destruct (String.eqb_spec method "OPTIONS") as [E|_]; [contradiction|].
  unfold bind, settle. destruct (attempt env log) as [[reply|e] log']; reflexivity.
Qed.

Lemma preflight_shanghai env log :
  handler "OPTIONS" env log =
    (Fulfilled {| code := 200; headers := CORS; body := Empty |}, log).
Proof. reflexivity. Qed.

(** *** The paths of the [try] block *)

Lemma attempt_sge_unreachable env log e :
  net env sgeUrl = Rejected e ->
  attempt env log = (Rejected e, (log ++ [sgeUrl])%list).
Proof. intros Hn. unfold attempt, fetch, bind. rewrite Hn. reflexivity. Qed.

Lemma attempt_sge_status env log r :
  net env sgeUrl = Fulfilled r -> ok r = false ->
  attempt env log =
    (Rejected ("SGE returned status " ++ show_int (status r)), (log ++ [sgeUrl])%list).
Proof.
  intros Hn Hok. unfold attempt, fetch, bind, throw. rewrite Hn, Hok. reflexivity.
Qed.

Lemma attempt_closed env log r rows :
  net env sgeUrl = Fulfilled r -> ok r = true -> text r = Fulfilled rows ->
  closed (agLatest (scan rows)) = true ->
  attempt env log =
    (Rejected "Ag(T+D) price not found or market closed (0.0)", (log ++ [sgeUrl])%list).
Proof.
  intros Hn Hok Ht Hc. unfold attempt, fetch, bind, await, throw.
  rewrite Hn, Hok; cbn. rewrite Ht.
  destruct (agLatest (scan rows)) as [x|] eqn:E; [|reflexivity].
  rewrite Hc. reflexivity.
Qed.

Lemma attempt_fx_status env log r rows r2 :
  net env sgeUrl = Fulfilled r -> ok r = true -> text r = Fulfilled rows ->
  closed (agLatest (scan rows)) = false ->
  net env fxUrl = Fulfilled r2 -> ok r2 = false ->
  attempt env log =
    (Rejected ("Exchange rate API returned status " ++ show_int (status r2)),
     (log ++ [sgeUrl; fxUrl])%list).
Proof.
  intros Hn Hok Ht Hc Hn2 Hok2. unfold attempt, fetch, bind, await, throw.
  rewrite Hn, Hok; cbn. rewrite Ht.
  destruct (agLatest (scan rows)) as [x|] eqn:E; [|discriminate].
  rewrite Hc, Hn2, Hok2. cbn. rewrite <- app_assoc. reflexivity.
Qed.

Lemma attempt_rate_missing env log r rows r2 data :
  net env sgeUrl = Fulfilled r -> ok r = true -> text r = Fulfilled rows ->
  closed (agLatest (scan rows)) = false ->
  net env fxUrl = Fulfilled r2 -> ok r2 = true -> json r2 = Fulfilled data ->
  data <> Undefined -> data <> Null ->
  member data "rates" <> Undefined -> member data "rates" <> Null ->
  truthy (member (member data "rates") "CNY") = false ->
  attempt env log =
    (Rejected "CNY rate not found in exchange rate response",
     (log ++ [sgeUrl; fxUrl])%list).
Proof.
  intros Hn Hok Ht Hc Hn2 Hok2 Hj Hd1 Hd2 Hr1 Hr2 Hcny.
  unfold attempt, fetch, bind, await.
  rewrite Hn, Hok; cbn -[get]. rewrite Ht.
  destruct (agLatest (scan rows)) as [x|] eqn:E; [|discriminate].
  rewrite Hc, Hn2, Hok2. cbn -[get]. rewrite Hj.
  rewrite (get_defined data "rates") by assumption. unfold ret at 1.
  rewrite (get_defined _ "CNY") by assumption. unfold ret at 1.
  rewrite Hcny. cbn. rewrite <- app_assoc. reflexivity.
Qed.

(** A rate that cannot be converted to a number is one more failure. *)
Lemma attempt_rate_unconvertible env log r rows r2 data :
  net env sgeUrl = Fulfilled r -> ok r = true -> text r = Fulfilled rows ->
  closed (agLatest (scan rows)) = false ->
  net env fxUrl = Fulfilled r2 -> ok r2 = true -> json r2 = Fulfilled data ->
  data <> Undefined -> data <> Null ->
  throws (member (member data "rates") "CNY") = true ->
  attempt env log =
    (Rejected "Cannot convert object to primitive value",
     (log ++ [sgeUrl; fxUrl])%list).
Proof.
  intros Hn Hok Ht Hc Hn2 Hok2 Hj Hd1 Hd2 Hthrows.
  assert (Hcny : truthy (member (member data "rates") "CNY") = true)
    by (destruct (member (member data "rates") "CNY"); try discriminate; reflexivity).
  assert (Hrates : truthy (member data "rates") = true).
  { destruct (member data "rates") as [| | | | [|c s] | |]; try reflexivity;
      discriminate. }
  unfold attempt, fetch, bind, await.
  rewrite Hn, Hok; cbn -[get]. rewrite Ht.
  destruct (agLatest (scan rows)) as [x|] eqn:E; [|discriminate].
  rewrite Hc, Hn2, Hok2. cbn -[get]. rewrite Hj.
  rewrite (get_defined data "rates") by assumption. unfold ret at 1.
  rewrite (get_truthy _ "CNY") by assumption.
  rewrite Hcny. cbn [negb]. unfold ToNumber. rewrite Hthrows.
  rewrite <- app_assoc. reflexivity.
Qed.

(** The successful path. *)
Lemma attempt_success env log r rows x r2 data :
  net env sgeUrl = Fulfilled r -> ok r = true -> text r = Fulfilled rows ->
  agLatest (scan rows) = Some x -> closed (Some x) = false ->
  net env fxUrl = Fulfilled r2 -> ok r2 = true -> json r2 = Fulfilled data ->
  data <> Undefined -> data <> Null ->
  member data "rates" <> Undefined -> member data "rates" <> Null ->
  truthy (member (member data "rates") "CNY") = true ->
  throws (member (member data "rates") "CNY") = false ->
  exists reply p,
    attempt env log = (Fulfilled reply, (log ++ [sgeUrl; fxUrl])%list) /\
    code reply = 200 /\ body reply = PriceData p /\
    rmb_per_kg p = x /\
    usd_cny_rate p = member (member data "rates") "CNY" /\
    usd_per_oz p =
      rounded 4
        (x / (TROY_OZ_PER_KG * number_of (member (member data "rates") "CNY"))).
Proof.
  intros Hn Hok Ht Hx Hc Hn2 Hok2 Hj Hd1 Hd2 Hr1 Hr2 Hcny Hthrows.
  unfold attempt, fetch, bind, await.
  rewrite Hn, Hok; cbn -[get]. rewrite Ht, Hx, Hc, Hn2, Hok2. cbn -[get]. rewrite Hj.
  rewrite (get_defined data "rates") by assumption. unfold ret at 1.
  rewrite (get_defined _ "CNY") by assumption. unfold ret at 1.
  rewrite Hcny. cbn [negb]. unfold ToNumber. rewrite Hthrows.
  cbn. rewrite <- app_assoc.
  eexists; eexists. repeat split; try reflexivity.
  apply parseFloat_toFixed_rounded.
Qed.

(** *** No partial answer *)

(** C9: each failure of the [try] block is answered with status 500 and a
    body that holds the error message and no price: an unreachable SGE, a
    non-success SGE status, a missing, zero or non-numeric Ag(T+D) price, a
    non-success FX status, a missing CNY rate, and in general whatever the
    block throws.  After an SGE failure the FX request is not issued: the
    SGE URL is the only one requested. *)
Theorem single_failure_is_500 method env log :
  method <> "OPTIONS" ->
  (forall e,
     net env sgeUrl = Rejected e ->
     handler method env log =
       (Fulfilled (error_reply (clock env) e), (log ++ [sgeUrl])%list)) /\
  (forall r,
     net env sgeUrl = Fulfilled r -> ok r = false ->
     handler method env log =
       (Fulfilled (error_reply (clock env)
                     ("SGE returned status " ++ show_int (status r))),
        (log ++ [sgeUrl])%list)) /\
  (forall r rows,
     net env sgeUrl = Fulfilled r -> ok r = true -> text r = Fulfilled rows ->
     closed (agLatest (scan rows)) = true ->
     handler method env log =
       (Fulfilled (error_reply (clock env)
                     "Ag(T+D) price not found or market closed (0.0)"),
        (log ++ [sgeUrl])%list)) /\
  (forall r rows,
     net env sgeUrl = Fulfilled r -> ok r = true -> text r = Fulfilled rows ->
     closed (agLatest (scan rows)) = false ->
     (forall r2,
        net env fxUrl = Fulfilled r2 -> ok r2 = false ->
        handler method env log =
          (Fulfilled (error_reply (clock env)
                        ("Exchange rate API returned status " ++ show_int (status r2))),
           (log ++ [sgeUrl; fxUrl])%list)) /\
     (forall r2 data,
        net env fxUrl = Fulfilled r2 -> ok r2 = true -> json r2 = Fulfilled data ->
        data <> Undefined -> data <> Null ->
        member data "rates" <> Undefined -> member data "rates" <> Null ->
        truthy (member (member data "rates") "CNY") = false ->
        handler method env log =
          (Fulfilled (error_reply (clock env)
                        "CNY rate not found in exchange rate response"),
           (log ++ [sgeUrl; fxUrl])%list))) /\
  (forall message log',
     attempt env log = (Rejected message, log') ->
     handler method env log = (Fulfilled (error_reply (clock env) message), log')) /\
  (forall iso message,
     code (error_reply iso message) = 500 /\
     exists f, body (error_reply iso message) = ErrorData f /\ error f = message).
Proof.
  intros Hm. rewrite (handler_recovers _ _ _ Hm).
  split; [|split; [|split; [|split; [|split]]]].
  - intros e Hn.
    rewrite (attempt_sge_unreachable env log e) by assumption. reflexivity.
  - intros r Hn Hok.
    rewrite (attempt_sge_status env log r) by assumption. reflexivity.
  - intros r rows Hn Hok Ht Hc.
    rewrite (attempt_closed env log r rows) by assumption. reflexivity.
  - intros r rows Hn Hok Ht Hc. split.
    + intros r2 Hn2 Hok2.
      rewrite (attempt_fx_status env log r rows r2) by assumption. reflexivity.
    + intros r2 data Hn2 Hok2 Hj Hd1 Hd2 Hr1 Hr2 Hcny.
      rewrite (attempt_rate_missing env log r rows r2 data) by assumption.
      reflexivity.
  - intros message log' Ha. rewrite Ha. reflexivity.
  - intros iso message. split; [reflexivity|].
    eexists. split; reflexivity.
Qed.

Lemma single_failure_example :
  "GET" <> "OPTIONS" /\
  handler "GET" Upstream.all_down [] =
    (Fulfilled (error_reply (clock Upstream.all_down) "SGE returned status 502"),
     [sgeUrl]) /\
  handler "GET" Upstream.fx_down [] =
    (Fulfilled (error_reply (clock Upstream.fx_down)
                  "Exchange rate API returned status 503"),
     [sgeUrl; fxUrl]).
Proof.
  split; [discriminate|]. split.
  - destruct (single_failure_is_500 "GET" Upstream.all_down []) as (_ & H & _);
      [discriminate|].
    exact (H (Upstream.failing 502) eq_refl eq_refl).
  - destruct (single_failure_is_500 "GET" Upstream.fx_down []) as (_ & _ & _ & H & _);
      [discriminate|].
    destruct (H (Upstream.page (Upstream.quotes "9875.0")) (Upstream.quotes "9875.0")
                eq_refl eq_refl eq_refl eq_refl) as (H2 & _).
    exact (H2 (Upstream.failing 503) eq_refl eq_refl).
Defined.

(** *** A negative price *)

(** C6 on the standalone endpoint: a page whose Ag(T+D) row quotes [-5] is
    answered with status 200 and [rmb_per_kg = -5], where the aggregator's
    adapter, given the same page, fails with
    "Ag(T+D) not found or market closed". *)
Theorem negative_price_is_served :
  parseFloat "-5" = (-5)%float /\
  (0 <? -5)%float = false /\
  closed (agLatest (scan (Upstream.quotes "-5"))) = false /\
  (exists reply p,
     handler "GET" Upstream.negative_quote [] = (Fulfilled reply, [sgeUrl; fxUrl]) /\
     code reply = 200 /\ body reply = PriceData p /\
     rmb_per_kg p = (-5)%float /\ usd_per_oz p = (-0.0218)%float) /\
  outcome Aggregator.fetchSGE Upstream.negative_quote =
    Rejected "Ag(T+D) not found or market closed".
Proof.
  split; [vm_compute; reflexivity|].
  split; [vm_compute; reflexivity|].
  split; [vm_compute; reflexivity|].
  split; [|vm_compute; reflexivity].
  eexists; eexists. repeat split; reflexivity.
Qed.

End ShanghaiFacts.

(** ** The conversion to USD per troy ounce *)

Module ConversionFacts.
Import JS JSFacts.

(** C2, as the code has it: with the SGE adapter fulfilled with latest price
    [p] and the FX adapter fulfilled with the number [r], [usd_per_oz] is
    [p / (32.1507465686 * r)] rounded to 4 decimal places (with a rate that
    is no number, the rate converted to one); for [p = 9875.0] and
    [r = 7.15] that is [42.9576], in the aggregator and in the standalone
    endpoint. *)
Theorem usd_per_oz_formula iso q comexR r :
  Aggregator.convert (Aggregator.latest q) (Num r) =
    Fulfilled (rounded 4 (Aggregator.latest q / (32.1507465686 * r))) /\
  (Aggregator.crashes (Fulfilled q) comexR (Fulfilled (Num r)) = false ->
   exists result,
     Aggregator.assemble iso (Fulfilled q) comexR (Fulfilled (Num r)) =
       Fulfilled result) /\
  (forall rate result,
     Aggregator.assemble iso (Fulfilled q) comexR (Fulfilled rate) =
       Fulfilled result ->
     exists entry,
       Aggregator.sge result = Some entry /\
       Aggregator.rmb_per_kg entry = Aggregator.latest q /\
       Aggregator.usd_per_oz entry =
         rounded 4 (Aggregator.latest q / (32.1507465686 * number_of rate))) /\
  rounded 4 (9875 / (32.1507465686 * 7.15)) = 42.9576%float /\
  option_map Aggregator.sge (outcome_value (Aggregator.cycle Upstream.all_up)) =
    Some (Some {| Aggregator.usd_per_oz := 42.9576;
                  Aggregator.rmb_per_kg := 9875;
                  Aggregator.rmb_high := 9900;
                  Aggregator.rmb_low := 9800;
                  Aggregator.rmb_open := Some 9850%float |}) /\
  (exists reply p,
     Shanghai.handler "GET" Upstream.all_up [] =
       (Fulfilled reply, [Shanghai.sgeUrl; Shanghai.fxUrl]) /\
     Shanghai.body reply = Shanghai.PriceData p /\
     Shanghai.rmb_per_kg p = 9875%float /\
     Shanghai.usd_cny_rate p = Num 7.15 /\
     Shanghai.usd_per_oz p = 42.9576%float).
Proof.
  split; [|split; [|split]].
  - unfold Aggregator.convert. cbn [ToNumber throws].
    f_equal. apply parseFloat_toFixed_rounded.
  - apply AggregatorFacts.assemble_settles.
  - intros rate result Hr. apply AggregatorFacts.assemble_fulfilled in Hr.
    subst result. eexists. split; [reflexivity|]. split; [reflexivity|].
    apply parseFloat_toFixed_rounded.
  - split; [vm_compute; reflexivity|].
    split; [vm_compute; reflexivity|].
    eexists; eexists. repeat split; reflexivity.
Qed.

(** C2 as stated fails in its example: [9875.0] and [7.15] give [42.9576],
    which is not [42.9603]. *)
Lemma example_is_not_42_9603 :
  exists result entry,
    Aggregator.cycle Upstream.all_up = Fulfilled result /\
    Aggregator.sge result = Some entry /\
    Aggregator.rmb_per_kg entry = 9875%float /\
    option_map Aggregator.usd_cny (Aggregator.fx result) = Some (Num 7.15) /\
    Aggregator.usd_per_oz entry = 42.9576%float /\
    (Aggregator.usd_per_oz entry =? 42.9603)%float = false.
Proof. eexists; eexists. repeat split; vm_compute; reflexivity. Qed.

End ConversionFacts.

(** ** The aggregator, further: adapters, error entries, answers *)

Module AggregatorBehaviour.
Import JS JSFacts Aggregator AggregatorFacts.

(** *** The COMEX adapter *)

Lemma fetchCOMEX_outcome env res data :
  net env COMEX_URL = Fulfilled res -> ok res = true -> json res = Fulfilled data ->
  data <> Undefined -> data <> Null ->
  outcome fetchCOMEX env =
    if truthy (item_of data) && truthy (member (item_of data) "xagPrice")
    then Fulfilled (comex_of data (clock env))
    else Rejected "Silver price not found in COMEX data".
Proof.
  intros Hn Hok Hj Hu Hl.
  unfold fetchCOMEX, comex_of, item_of, outcome, fetchWithTimeout, fetch, bind, await, now.
  rewrite Hn, Hok; cbn -[get]. rewrite Hj.
  rewrite (get_defined data "items") by assumption. unfold ret at 1.
  destruct (truthy (member data "items")) eqn:Hitems.
  - rewrite (get_truthy _ "0") by assumption.
    destruct (truthy (member (member data "items") "0")) eqn:Hitem; [|reflexivity].
    rewrite (get_truthy _ "xagPrice") by assumption. cbn [negb orb andb].
    destruct (truthy (member (member (member data "items") "0") "xagPrice"));
      [|reflexivity].
    cbn [negb].
    rewrite (get_truthy _ "chgXag"), (get_truthy _ "pcXag"),
      (get_truthy _ "xagClose") by assumption.
    rewrite (get_defined data "date") by assumption.
    reflexivity.
  - unfold ret at 1. rewrite Hitems. reflexivity.
Qed.

Lemma fetchCOMEX_truthy env c :
  outcome fetchCOMEX env = Fulfilled c -> truthy (price c) = true.
Proof.
  unfold fetchCOMEX, outcome, fetchWithTimeout, fetch, bind, await, now.
  destruct (net env COMEX_URL) as [res|e]; [|discriminate].
  destruct (ok res); cbn -[get]; [|discriminate].
  destruct (json res) as [data|e]; [|discriminate].
  rewrite (get_run data "items"). unfold outcome. cbn [fst].
  destruct (fst (get data "items" env [])) as [items|e] eqn:Hget; [|discriminate].
  assert (Hdata : data <> Undefined /\ data <> Null)
    by (destruct data; try discriminate; split; discriminate).
  destruct (truthy items) eqn:Hitems.
  - rewrite (get_truthy items "0") by assumption.
    destruct (truthy (member items "0")) eqn:Hitem; [|discriminate].
    rewrite (get_truthy _ "xagPrice") by assumption. cbn [negb orb].
    destruct (truthy (member (member items "0") "xagPrice")) eqn:Hp; [|discriminate].
    cbn [negb].
    rewrite (get_truthy _ "chgXag"), (get_truthy _ "pcXag"),
      (get_truthy _ "xagClose") by assumption.
    rewrite (get_defined data "date") by apply Hdata.
    cbn. now intros [= <-].
  - unfold ret. rewrite Hitems. discriminate.
Qed.


(** X1: on a response with a success status and a JSON document, the COMEX
    adapter returns the first item's fields when the first item and its
    [xagPrice] are truthy, with [data.date] or else the current time as the
    timestamp, and fails with "Silver price not found in COMEX data"
    otherwise; a price it returns is truthy, so never zero nor [NaN]. *)
Theorem comex_price_found env res data :
  net env COMEX_URL = Fulfilled res -> ok res = true -> json res = Fulfilled data ->
  data <> Undefined -> data <> Null ->
  outcome fetchCOMEX env =
    (if truthy (item_of data) && truthy (member (item_of data) "xagPrice")
     then Fulfilled (comex_of data (clock env))
     else Rejected "Silver price not found in COMEX data") /\
  (forall c, outcome fetchCOMEX env = Fulfilled c ->
     truthy (price c) = true /\
     forall x, price c = Num x ->
       PrimFloat.is_nan x = false /\ PrimFloat.is_zero x = false).
Proof.
  intros Hn Hok Hj Hu Hl. split.
  - now apply (fetchCOMEX_outcome env res data).
  - intros c Hc. apply fetchCOMEX_truthy in Hc. split; [exact Hc|].
    intros x Hx. rewrite Hx in Hc. cbn in Hc. unfold truthy_num in Hc.
    apply negb_true_iff, orb_false_elim in Hc. exact Hc.
Qed.

Lemma comex_price_found_example :
  outcome fetchCOMEX Upstream.all_up =
    Fulfilled {| price := Num 43.5; change := Num 0.25; changePercent := Num 0.58;
                 prevClose := Num 43.25;
                 timestamp := Str "Jan 1st 2025, 12:00:00 am NY" |} /\
  outcome fetchCOMEX Upstream.zero_price =
    Rejected "Silver price not found in COMEX data" /\
  outcome fetchCOMEX Upstream.no_items =
    Rejected "Silver price not found in COMEX data".
Proof.
  split; [|split].
  - exact (proj1 (comex_price_found Upstream.all_up
                    (Upstream.document (Upstream.spot (Num 43.5)))
                    (Upstream.spot (Num 43.5)) eq_refl eq_refl eq_refl
                    ltac:(discriminate) ltac:(discriminate))).
  - exact (proj1 (comex_price_found Upstream.zero_price
                    (Upstream.document (Upstream.spot (Num 0)))
                    (Upstream.spot (Num 0)) eq_refl eq_refl eq_refl
                    ltac:(discriminate) ltac:(discriminate))).
  - exact (proj1 (comex_price_found Upstream.no_items
                    (Upstream.document (Obj [("items", Arr [])]))
                    (Obj [("items", Arr [])]) eq_refl eq_refl eq_refl
                    ltac:(discriminate) ltac:(discriminate))).
Defined.

(** X2: a response whose status is outside 200..299 makes the adapter that
    received it fail with its own prefix and the status code, whatever the
    body holds. *)
Theorem http_status_is_reported env res :
  ok res = false ->
  (net env SGE_URL = Fulfilled res ->
   outcome fetchSGE env = Rejected ("SGE HTTP " ++ show_int (status res))) /\
  (net env COMEX_URL = Fulfilled res ->
   outcome fetchCOMEX env = Rejected ("COMEX HTTP " ++ show_int (status res))) /\
  (net env FX_URL = Fulfilled res ->
   outcome fetchFX env = Rejected ("FX HTTP " ++ show_int (status res))).
Proof.
  intros Hok. repeat split; intros Hn.
  - unfold fetchSGE, outcome, fetchWithTimeout, fetch, bind. rewrite Hn, Hok. reflexivity.
  - unfold fetchCOMEX, outcome, fetchWithTimeout, fetch, bind. rewrite Hn, Hok. reflexivity.
  - unfold fetchFX, outcome, fetchWithTimeout, fetch, bind. rewrite Hn, Hok. reflexivity.
Qed.

Lemma http_status_is_reported_example :
  ok (Upstream.failing 503) = false /\
  outcome fetchFX Upstream.fx_down = Rejected "FX HTTP 503" /\
  outcome fetchSGE Upstream.all_down = Rejected "SGE HTTP 502".
Proof.
  split; [reflexivity|]. split.
  - exact (proj2 (proj2 (http_status_is_reported Upstream.fx_down
                           (Upstream.failing 503) eq_refl)) eq_refl).
  - exact (proj1 (http_status_is_reported Upstream.all_down
                    (Upstream.failing 502) eq_refl) eq_refl).
Defined.

(** X3: each adapter issues exactly one request, to its own URL, whatever
    the upstream answers: there is no retry and no second request. *)
Theorem one_request_each env log :
  snd (fetchSGE env log) = (log ++ [SGE_URL])%list /\
  snd (fetchCOMEX env log) = (log ++ [COMEX_URL])%list /\
  snd (fetchFX env log) = (log ++ [FX_URL])%list.
Proof.
  rewrite fetchSGE_run, fetchCOMEX_run, fetchFX_run. repeat split.
Qed.


(** *** The error entries *)

Lemma message_of_nonempty e : message_of e <> "".
Proof.
  unfold message_of. destruct (String.eqb_spec e "") as [->|Hne];
    [discriminate | exact Hne].
Qed.

(** X4: in a composite result no error entry has an empty message, and each
    rejected adapter has its entry, with the message of its reason or
    "Unknown error" when that message is empty. *)
Theorem error_messages iso sgeR comexR fxR result :
  assemble iso sgeR comexR fxR = Fulfilled result ->
  (forall entry, In entry (errors result) -> message entry <> "") /\
  (forall e, comexR = Rejected e ->
     In {| source := "comex"; message := if (e =? "")%string then "Unknown error" else e |}
        (errors result)) /\
  (forall e, fxR = Rejected e ->
     In {| source := "fx"; message := if (e =? "")%string then "Unknown error" else e |}
        (errors result)) /\
  (forall e, sgeR = Rejected e ->
     In {| source := "sge"; message := if (e =? "")%string then "Unknown error" else e |}
        (errors result)).
Proof.
  intros Hr. apply assemble_fulfilled in Hr. subst result.
  unfold payload. cbn [errors]. split; [|split; [|split]].
  - intros entry Hin.
    repeat (apply in_app_or in Hin; destruct Hin as [Hin|Hin]);
      destruct sgeR, comexR, fxR; cbn in Hin;
      repeat (destruct Hin as [<-|Hin]; [cbn; try apply message_of_nonempty; discriminate|]);
      contradiction.
  - intros e ->. apply in_or_app; left. now left.
  - intros e ->. apply in_or_app; right. apply in_or_app; left. now left.
  - intros e ->. apply in_or_app; right. apply in_or_app; right. now left.
Qed.

Lemma error_messages_example :
  exists result,
    assemble "" (Rejected "SGE HTTP 502") (Rejected "") (Rejected "FX HTTP 503") =
      Fulfilled result /\
    In {| source := "comex"; message := "Unknown error" |} (errors result) /\
    In {| source := "sge"; message := "SGE HTTP 502" |} (errors result) /\
    (forall entry, In entry (errors result) -> message entry <> "").
Proof.
  eexists. split; [reflexivity|].
  destruct (error_messages "" (Rejected "SGE HTTP 502") (Rejected "")
              (Rejected "FX HTTP 503") _ eq_refl) as (Hne & Hc & _ & Hs).
  split; [exact (Hc "" eq_refl)|]. split; [exact (Hs "SGE HTTP 502" eq_refl)|].
  exact Hne.
Defined.

(** X5: a composite result has no error exactly when the three adapters are
    fulfilled, and then [sge], [comex], [fx] and [premium] are all present
    and the status is 200; it never has more than three errors. *)
Theorem no_error_iff_all_fulfilled iso sgeR comexR fxR result :
  assemble iso sgeR comexR fxR = Fulfilled result ->
  (errors result = [] <->
     is_rejected sgeR = false /\ is_rejected comexR = false /\
     is_rejected fxR = false) /\
  (errors result = [] ->
     sge result <> None /\ comex result <> None /\ fx result <> None /\
     premium result <> None /\ status_of result = 200) /\
  (List.length (errors result) <= 3)%nat.
Proof.
  intros Hr. apply assemble_fulfilled in Hr. subst result.
  destruct sgeR, comexR, fxR; cbn;
    (split; [split; [intros H; try discriminate; repeat split
                    | intros (H1 & H2 & H3); try discriminate; reflexivity]
            | split; [intros H; try discriminate; repeat split; discriminate | lia]]).
Qed.

Lemma no_error_iff_all_fulfilled_example :
  exists result,
    cycle Upstream.all_up = Fulfilled result /\
    errors result = [] /\ premium result <> None /\ status_of result = 200.
Proof.
  eexists. split; [vm_compute; reflexivity|].
  match goal with
  | |- errors ?r = [] /\ _ =>
      destruct (no_error_iff_all_fulfilled
                  (clock Upstream.all_up) (outcome fetchSGE Upstream.all_up)
                  (outcome fetchCOMEX Upstream.all_up)
                  (outcome fetchFX Upstream.all_up) r)
        as (Hiff & Hfull & _); [vm_compute; reflexivity|]
  end.
  assert (He : errors _ = []) by (apply Hiff; repeat split; vm_compute; reflexivity).
  split; [exact He|]. destruct (Hfull He) as (_ & _ & _ & Hp & Hs). now split.
Defined.


(** *** The SGE parser, further *)

Lemma or_null_truthy o :
  match or_null o with Some x => truthy_num x = true | None => True end.
Proof.
  destruct o as [x|]; cbn; [|exact I].
  destruct (truthy_num x) eqn:E; [exact E | exact I].
Qed.

(** X6: the [open] of a quote the parser returns is [null] or a number that
    is neither zero nor [NaN]; the quote comes from a priced row of the page,
    and [open] is [null] when that row has fewer than five cells. *)
Theorem open_is_null_or_truthy rows q :
  scan rows = Some q ->
  match open q with
  | Some x => PrimFloat.is_nan x = false /\ PrimFloat.is_zero x = false
  | None => True
  end /\
  exists cells,
    In cells rows /\ priced cells = true /\ q = quote_of cells /\
    ((List.length cells < 5)%nat -> open q = None).
Proof.
  unfold scan. rewrite fold_scan_row.
  destruct (rev (filter priced rows)) as [|cells l] eqn:E; [discriminate|].
  intros [= <-].
  assert (Hin : In cells (filter priced rows))
    by (apply in_rev; rewrite E; now left).
  apply filter_In in Hin. destruct Hin as [Hin Hp].
  split.
  - unfold quote_of. cbn [open].
    pose proof (or_null_truthy
      (if (5 <=? List.length cells)%nat then Some (parseFloat (cell cells 4)) else None)) as H.
    destruct (or_null _) as [x|]; [|exact I].
    unfold truthy_num in H. apply negb_true_iff, orb_false_elim in H. exact H.
  - exists cells. repeat split; try assumption.
    intros Hlen. unfold quote_of. cbn [open].
    destruct (Nat.leb_spec 5 (List.length cells)); [lia | reflexivity].
Qed.

Lemma open_is_null_or_truthy_example :
  exists q,
    scan [["Ag(T+D)"; "9875.0"; "9900.0"; "9800.0"]] = Some q /\
    latest q = 9875%float /\ open q = None.
Proof.
  eexists. split; [vm_compute; reflexivity|]. split; [reflexivity|].
  destruct (open_is_null_or_truthy
              [["Ag(T+D)"; "9875.0"; "9900.0"; "9800.0"]] _ eq_refl)
    as (_ & cells & Hin & _ & _ & Hlen).
  apply Hlen. destruct Hin as [<-|[]]. cbn. lia.
Defined.


Lemma priced_labelled cells : priced cells = true -> labelled cells = true.
Proof. unfold priced, labelled. intros H. now apply andb_prop in H. Qed.

Lemma filter_priced_labelled rows :
  filter priced (filter labelled rows) = filter priced rows.
Proof.
  induction rows as [|cells rows IH]; [reflexivity|].
  cbn [filter]. destruct (labelled cells) eqn:El.
  - cbn [filter]. now rewrite IH.
  - rewrite IH. destruct (priced cells) eqn:Ep; [|reflexivity].
    apply priced_labelled in Ep. congruence.
Qed.

(** X7: rows with fewer than four cells or with another label have no
    effect on the quote: the parser returns what it returns on the labelled
    rows alone, and removing such a row anywhere changes nothing. *)
Theorem other_rows_are_ignored rows :
  scan rows = scan (filter labelled rows) /\
  (forall before cells after,
     labelled cells = false ->
     scan (before ++ cells :: after) = scan (before ++ after)).
Proof.
  split.
  - unfold scan. now rewrite !fold_scan_row, filter_priced_labelled.
  - intros before cells after Hl. unfold scan. rewrite !fold_scan_row.
    rewrite !filter_app. cbn [filter].
    destruct (priced cells) eqn:Ep; [|reflexivity].
    apply priced_labelled in Ep. congruence.
Qed.


(** *** Answers and rejections of the handler *)

(** X8: the aggregator's handler rejects exactly when SGE and FX are
    fulfilled and the conversion of the rate, or with COMEX fulfilled of the
    reference price, to a number throws; in particular it answers whenever
    the SGE or the FX adapter is rejected. *)
Theorem handler_rejects_iff method env log :
  method <> "OPTIONS" ->
  (forall e,
     fst (handler method env log) = Rejected e <->
     crashes (outcome fetchSGE env) (outcome fetchCOMEX env) (outcome fetchFX env) = true /\
     e = "Cannot convert object to primitive value") /\
  (is_rejected (outcome fetchSGE env) = true \/
   is_rejected (outcome fetchFX env) = true ->
   exists reply, fst (handler method env log) = Fulfilled reply).
Proof.
  intros Hm. rewrite (handler_run _ _ _ Hm). cbn [fst]. unfold cycle.
  rewrite assemble_payload. split.
  - intros e.
    destruct (crashes (outcome fetchSGE env) (outcome fetchCOMEX env) (outcome fetchFX env)).
    + split; [intros [= <-]; now split | intros [_ ->]; reflexivity].
    + split; [discriminate | intros [H _]; discriminate].
  - intros H.
    assert (Hc : crashes (outcome fetchSGE env) (outcome fetchCOMEX env)
                   (outcome fetchFX env) = false).
    { unfold crashes.
      destruct (outcome fetchSGE env), (outcome fetchFX env); try reflexivity.
      destruct H; discriminate. }
    rewrite Hc. now eexists.
Qed.

Lemma handler_rejects_iff_example :
  "GET" <> "OPTIONS" /\
  fst (handler "GET" Upstream.unconvertible_rate []) =
    Rejected "Cannot convert object to primitive value" /\
  exists reply, fst (handler "GET" Upstream.fx_down []) = Fulfilled reply.
Proof.
  split; [discriminate|]. split.
  - destruct (handler_rejects_iff "GET" Upstream.unconvertible_rate [])
      as (Hiff & _); [discriminate|].
    apply Hiff. split; reflexivity.
  - destruct (handler_rejects_iff "GET" Upstream.fx_down [])
      as (_ & Hans); [discriminate|].
    apply Hans. right. reflexivity.
Defined.

(** X9: every answer of the aggregator carries the two CORS headers; the
    answer to OPTIONS is 200 without a body and without any request
    upstream; any other answer is 200 or 502, has a body and carries the
    60-second Cache-Control header. *)
Theorem answers_carry_headers method env log reply :
  fst (handler method env log) = Fulfilled reply ->
  incl CORS (headers reply) /\
  (method = "OPTIONS" ->
     code reply = 200 /\ body reply = None /\ snd (handler method env log) = log) /\
  (method <> "OPTIONS" ->
     (code reply = 200 \/ code reply = 502) /\ body reply <> None /\
     In ("Cache-Control", "s-maxage=60, stale-while-revalidate=300") (headers reply)).
Proof.
  intros Hr. destruct (String.eqb_spec method "OPTIONS") as [->|Hm].
  - cbn in Hr. injection Hr as <-.
    split; [apply incl_refl|].
    split; [intros _; repeat split | intros H; now elim H].
  - destruct (handler_answers _ _ _ _ Hm Hr) as (result & _ & ->).
    cbn [reply_of headers code body]. split; [apply incl_appl, incl_refl|].
    split; [intros H; contradiction|]. intros _. split; [|split].
    + unfold status_of. destruct (comex result), (sge result); auto.
    + discriminate.
    + apply in_or_app; right. now left.
Qed.


Lemma answers_carry_headers_example :
  exists reply,
    fst (handler "GET" Upstream.all_down []) = Fulfilled reply /\
    code reply = 502 /\ incl CORS (headers reply).
Proof.
  eexists. split; [vm_compute; reflexivity|]. split; [reflexivity|].
  exact (proj1 (answers_carry_headers "GET" Upstream.all_down [] _ eq_refl)).
Defined.

End AggregatorBehaviour.

(** ** The standalone endpoint, further *)

Module ShanghaiBehaviour.
Import JS JSFacts Shanghai ShanghaiFacts.

Lemma truthy_num_spec x :
  truthy_num x = true -> PrimFloat.is_nan x = false /\ PrimFloat.is_zero x = false.
Proof. unfold truthy_num. intros H. now apply negb_true_iff, orb_false_elim in H. Qed.

Lemma member_truthy v k :
  truthy (member v k) = true -> v <> Undefined /\ v <> Null /\ truthy v = true.
Proof.
  destruct v as [| | | | [|c s] | |]; cbn; intros H; try discriminate;
    repeat split; discriminate.
Qed.

Lemma scan_row_labelled ag cells :
  scan_row ag cells = if labelled cells then ag_of cells else ag.
Proof.
  unfold scan_row, labelled, ag_of.
  destruct (4 <=? List.length cells)%nat; [|reflexivity].
  destruct (cell cells 0 =? "Ag(T+D)")%string; reflexivity.
Qed.

Lemma fold_scan_row_labelled rows : forall ag,
  fold_left scan_row rows ag =
    match rev (filter labelled rows) with
    | cells :: _ => ag_of cells
    | [] => ag
    end.
Proof.
  induction rows as [|cells rows IH]; intros ag; [reflexivity|].
  cbn [fold_left filter]. rewrite IH, scan_row_labelled.
  destruct (labelled cells); [|reflexivity].
  cbn [rev]. destruct (rev (filter labelled rows)); reflexivity.
Qed.

(** X10: the standalone parser keeps the values of the last labelled row,
    whatever they are: a labelled row overwrites what the rows before it
    gave, any other row changes nothing, and a last labelled row whose latest
    value is zero or not a number closes the market even after a valid
    row. *)
Theorem last_labelled_row_wins rows :
  scan rows =
    match rev (filter labelled rows) with
    | cells :: _ => ag_of cells
    | [] => {| agLatest := None; agHigh := None; agLow := None; agOpen := None |}
    end /\
  (forall cells, labelled cells = true -> scan (rows ++ [cells]) = ag_of cells) /\
  (forall cells, labelled cells = false -> scan (rows ++ [cells]) = scan rows) /\
  (forall cells,
     labelled cells = true -> truthy_num (parseFloat (cell cells 1)) = false ->
     closed (agLatest (scan (rows ++ [cells]))) = true).
Proof.
  split; [apply fold_scan_row_labelled|].
  assert (Happ : forall cells, scan (rows ++ [cells]) = scan_row (scan rows) cells)
    by (intros cells; unfold scan; now rewrite fold_left_app).
  split; [|split].
  - intros cells Hl. now rewrite Happ, scan_row_labelled, Hl.
  - intros cells Hl. now rewrite Happ, scan_row_labelled, Hl.
  - intros cells Hl Hz. rewrite Happ, scan_row_labelled, Hl.
    cbn [ag_of agLatest closed]. now rewrite Hz.
Qed.

Lemma attempt_fulfilled env log reply log' :
  attempt env log = (Fulfilled reply, log') ->
  exists r rows x r2 data,
    net env sgeUrl = Fulfilled r /\ ok r = true /\ text r = Fulfilled rows /\
    agLatest (scan rows) = Some x /\ closed (Some x) = false /\
    net env fxUrl = Fulfilled r2 /\ ok r2 = true /\ json r2 = Fulfilled data /\
    truthy (member (member data "rates") "CNY") = true /\
    throws (member (member data "rates") "CNY") = false /\
    log' = (log ++ [sgeUrl; fxUrl])%list /\
    reply = success_reply (clock env) (scan rows) x (member (member data "rates") "CNY").
Proof.
  unfold attempt, fetch, bind, await, throw.
  destruct (net env sgeUrl) as [r|e] eqn:Hn; [|discriminate].
  destruct (ok r) eqn:Hok; cbn -[get]; [|discriminate].
  destruct (text r) as [rows|e] eqn:Ht; [|discriminate].
  destruct (agLatest (scan rows)) as [x|] eqn:Hx; [|discriminate].
  destruct (closed (Some x)) eqn:Hc; [discriminate|].
  destruct (net env fxUrl) as [r2|e] eqn:Hn2; [|discriminate].
  destruct (ok r2) eqn:Hok2; cbn -[get]; [|discriminate].
  destruct (json r2) as [data|e] eqn:Hj; [|discriminate].
  rewrite (get_run data "rates"). unfold outcome. cbn [fst].
  destruct (fst (get data "rates" env [])) as [rates|e] eqn:Hg; [|discriminate].
  assert (Hrates : rates = member data "rates")
    by (destruct data; cbn in Hg; try discriminate; now injection Hg as <-).
  subst rates.
  rewrite (get_run _ "CNY"). unfold outcome. cbn [fst].
  destruct (fst (get (member data "rates") "CNY" env [])) as [cny|e] eqn:Hg2; [|discriminate].
  assert (Hcny : cny = member (member data "rates") "CNY")
    by (destruct (member data "rates"); cbn in Hg2; try discriminate; now injection Hg2 as <-).
  subst cny.
  destruct (truthy (member (member data "rates") "CNY")) eqn:Htr; cbn [negb]; [|discriminate].
  unfold ToNumber.
  destruct (throws (member (member data "rates") "CNY")) eqn:Hth; [discriminate|].
  cbn. rewrite <- app_assoc. intros [= <- <-].
  exists r, rows, x, r2, data. repeat split; try assumption; reflexivity.
Qed.

Lemma attempt_log env log :
  snd (attempt env log) = (log ++ [sgeUrl])%list \/
  snd (attempt env log) = (log ++ [sgeUrl; fxUrl])%list.
Proof.
  unfold attempt, fetch, bind, await, throw.
  destruct (net env sgeUrl) as [r|e]; [|now left].
  destruct (ok r); cbn -[get]; [|now left].
  destruct (text r) as [rows|e]; [|now left].
  destruct (agLatest (scan rows)) as [x|]; [|now left].
  destruct (closed (Some x)); [now left|]. right.
  destruct (net env fxUrl) as [r2|e]; [|cbn; now rewrite <- app_assoc].
  destruct (ok r2); cbn -[get]; [|now rewrite <- app_assoc].
  destruct (json r2) as [data|e]; [|cbn; now rewrite <- app_assoc].
  rewrite (get_run data "rates"). unfold outcome. cbn [fst].
  destruct (fst (get data "rates" env [])) as [rates|e]; [|cbn; now rewrite <- app_assoc].
  rewrite (get_run _ "CNY"). unfold outcome. cbn [fst].
  destruct (fst (get rates "CNY" env [])) as [cny|e]; [|cbn; now rewrite <- app_assoc].
  destruct (truthy cny); cbn [negb]; [|cbn; now rewrite <- app_assoc].
  destruct (ToNumber cny); cbn; now rewrite <- app_assoc.
Qed.


(** X11: the standalone endpoint never rejects.  It answers 200 with price
    data, the 1800-second Cache-Control header and both requests made, or
    500 with the message the [try] block threw, the 60-second header and one
    or two requests made, the SGE request first; the CORS headers are on
    every answer. *)
Theorem shanghai_always_answers method env log :
  method <> "OPTIONS" ->
  exists reply log',
    handler method env log = (Fulfilled reply, log') /\
    incl CORS (headers reply) /\
    ((code reply = 200 /\ (exists p, body reply = PriceData p) /\
      In ("Cache-Control", "s-maxage=1800, stale-while-revalidate=7200") (headers reply) /\
      log' = (log ++ [sgeUrl; fxUrl])%list) \/
     (code reply = 500 /\
      (exists f, body reply = ErrorData f /\ fst (attempt env log) = Rejected (error f)) /\
      In ("Cache-Control", "s-maxage=60, stale-while-revalidate=3600") (headers reply) /\
      (log' = (log ++ [sgeUrl])%list \/ log' = (log ++ [sgeUrl; fxUrl])%list))).
Proof.
  intros Hm. rewrite (handler_recovers _ _ _ Hm).
  pose proof (attempt_log env log) as Hlog.
  destruct (attempt env log) as [[reply|e] log'] eqn:Ha.
  - destruct (attempt_fulfilled _ _ _ _ Ha)
      as (r & rows & x & r2 & data & _ & _ & _ & _ & _ & _ & _ & _ & _ & _ & -> & ->).
    eexists; eexists. split; [reflexivity|].
    split; [apply incl_appl, incl_refl|]. left.
    split; [reflexivity|]. split; [now eexists|].
    split; [apply in_or_app; right; now left | reflexivity].
  - eexists; eexists. split; [reflexivity|].
    split; [apply incl_appl, incl_refl|]. right.
    split; [reflexivity|]. split; [eexists; split; reflexivity|].
    split; [apply in_or_app; right; now left | exact Hlog].
Qed.

Lemma shanghai_always_answers_example :
  "GET" <> "OPTIONS" /\
  exists reply log', handler "GET" Upstream.unconvertible_rate [] = (Fulfilled reply, log').
Proof.
  split; [discriminate|].
  destruct (shanghai_always_answers "GET" Upstream.unconvertible_rate [])
    as (reply & log' & H & _); [discriminate|].
  now exists reply, log'.
Defined.

(** X12: an answer with price data has status 200 and both requests behind
    it; its [rmb_per_kg] is neither zero nor [NaN], [rmb_high] and [rmb_low]
    are present, [rmb_open] is [null] or neither zero nor [NaN], the rate is
    truthy, and [usd_per_oz] is [rmb_per_kg / (32.1507465686 * rate)] rounded
    to 4 decimal places. *)
Theorem price_answer_invariants method env log reply p :
  fst (handler method env log) = Fulfilled reply -> body reply = PriceData p ->
  code reply = 200 /\
  snd (handler method env log) = (log ++ [sgeUrl; fxUrl])%list /\
  PrimFloat.is_nan (rmb_per_kg p) = false /\ PrimFloat.is_zero (rmb_per_kg p) = false /\
  rmb_high p <> None /\ rmb_low p <> None /\
  match rmb_open p with
  | Some x => PrimFloat.is_nan x = false /\ PrimFloat.is_zero x = false
  | None => True
  end /\
  truthy (usd_cny_rate p) = true /\
  usd_per_oz p =
    rounded 4 (rmb_per_kg p / (32.1507465686 * number_of (usd_cny_rate p))).
Proof.
  intros Hr Hb. destruct (String.eqb_spec method "OPTIONS") as [->|Hm].
  { cbn in Hr. injection Hr as <-. discriminate. }
  rewrite (handler_recovers _ _ _ Hm) in Hr |- *.
  destruct (attempt env log) as [[reply'|e] log'] eqn:Ha; cbn [fst snd] in *;
    injection Hr as <-; [|discriminate].
  destruct (attempt_fulfilled _ _ _ _ Ha)
    as (r & rows & x & r2 & data & _ & _ & _ & Hx & Hc & _ & _ & _ & Htr & _ & -> & ->).
  cbn in Hb. injection Hb as <-. cbn.
  rewrite closed_spec in Hc. apply orb_false_elim in Hc.
  unfold scan in Hx |- *. rewrite fold_scan_row_labelled in Hx |- *.
  destruct (rev (filter labelled rows)) as [|cells l]; [discriminate|].
  cbn [ag_of agHigh agLow agOpen].
  split; [reflexivity|]. split; [reflexivity|].
  split; [apply Hc|]. split; [apply Hc|].
  split; [discriminate|]. split; [discriminate|]. split; [|split].
  - pose proof (AggregatorBehaviour.or_null_truthy (Some (parseFloat (cell cells 4)))) as H.
    destruct (Aggregator.or_null _); [now apply truthy_num_spec | exact I].
  - exact Htr.
  - apply parseFloat_toFixed_rounded.
Qed.


Lemma price_answer_invariants_example :
  exists reply p,
    fst (handler "GET" Upstream.all_up []) = Fulfilled reply /\
    body reply = PriceData p /\
    code reply = 200 /\ rmb_high p <> None /\ truthy (usd_cny_rate p) = true.
Proof.
  eexists; eexists. split; [vm_compute; reflexivity|]. split; [reflexivity|].
  destruct (price_answer_invariants "GET" Upstream.all_up [] _ _ eq_refl eq_refl)
    as (Hcode & _ & _ & _ & Hhigh & _ & _ & Hrate & _).
  split; [exact Hcode|]. split; [exact Hhigh | exact Hrate].
Defined.

(** X13: on an FX document without a [rates] member the two endpoints
    differ: the aggregator's adapter, which guards the access, fails with
    "CNY rate not found", and the standalone endpoint, which does not,
    answers 500 with the TypeError of reading [CNY] of [undefined]. *)
Theorem missing_rates_object method env log r rows r2 data :
  method <> "OPTIONS" ->
  net env sgeUrl = Fulfilled r -> ok r = true -> text r = Fulfilled rows ->
  closed (agLatest (scan rows)) = false ->
  net env fxUrl = Fulfilled r2 -> ok r2 = true -> json r2 = Fulfilled data ->
  data <> Undefined -> data <> Null -> member data "rates" = Undefined ->
  outcome Aggregator.fetchFX env = Rejected "CNY rate not found" /\
  handler method env log =
    (Fulfilled (error_reply (clock env)
                  "Cannot read properties of undefined (reading 'CNY')"),
     (log ++ [sgeUrl; fxUrl])%list).
Proof.
  intros Hm Hn Hok Ht Hc Hn2 Hok2 Hj Hd1 Hd2 Hrates. split.
  - rewrite (AggregatorFacts.fetchFX_outcome env r2 data) by assumption.
    unfold Aggregator.cny_of. rewrite Hrates. reflexivity.
  - rewrite (handler_recovers _ _ _ Hm).
    unfold attempt, fetch, bind, await.
    rewrite Hn, Hok; cbn -[get]. rewrite Ht.
    destruct (agLatest (scan rows)) as [x|] eqn:E; [|discriminate].
    rewrite Hc, Hn2, Hok2. cbn -[get]. rewrite Hj.
    rewrite (get_defined data "rates") by assumption. unfold ret at 1.
    rewrite Hrates. cbn. rewrite <- app_assoc. reflexivity.
Qed.

Lemma missing_rates_object_example :
  "GET" <> "OPTIONS" /\
  outcome Aggregator.fetchFX Upstream.no_rates = Rejected "CNY rate not found" /\
  handler "GET" Upstream.no_rates [] =
    (Fulfilled (error_reply (clock Upstream.no_rates)
                  "Cannot read properties of undefined (reading 'CNY')"),
     [sgeUrl; fxUrl]).
Proof.
  split; [discriminate|].
  exact (missing_rates_object "GET" Upstream.no_rates []
           (Upstream.page (Upstream.quotes "9875.0")) (Upstream.quotes "9875.0")
           (Upstream.document (Obj [("result", Str "error")]))
           (Obj [("result", Str "error")])
           ltac:(discriminate) eq_refl eq_refl eq_refl eq_refl eq_refl eq_refl eq_refl
           ltac:(discriminate) ltac:(discriminate) eq_refl).
Defined.

End ShanghaiBehaviour.

(** ** The two endpoints on the same upstreams *)

Module EndpointsAgree.
Import JS JSFacts.

Lemma last_labelled_priced rows cells l :
  rev (filter Aggregator.labelled rows) = cells :: l ->
  Aggregator.priced cells = true ->
  exists l', rev (filter Aggregator.priced rows) = cells :: l'.
Proof.
  intros Hrev Hp.
  rewrite <- AggregatorBehaviour.filter_priced_labelled.
  apply (f_equal (@rev _)) in Hrev. rewrite rev_involutive in Hrev. cbn [rev] in Hrev.
  rewrite Hrev, filter_app. cbn [filter]. rewrite Hp.
  rewrite rev_app_distr. cbn. now eexists.
Qed.

Lemma open_agrees cells :
  Aggregator.or_null
    (if (5 <=? List.length cells)%nat
     then Some (parseFloat (Aggregator.cell cells 4)) else None) =
  Aggregator.or_null (Some (parseFloat (Shanghai.cell cells 4))).
Proof.
  destruct (Nat.leb_spec 5 (List.length cells)) as [H|H]; [reflexivity|].
  unfold Shanghai.cell. rewrite nth_overflow by lia. reflexivity.
Qed.

(** X14: when the standalone endpoint answers with a positive [rmb_per_kg],
    the aggregator's adapters, on the same upstreams, return the same quote
    (latest, high, low, open) and the same rate, and every composite result
    of the aggregator carries the same [usd_per_oz]. *)
Theorem endpoints_agree method env log reply p :
  fst (Shanghai.handler method env log) = Fulfilled reply ->
  Shanghai.body reply = Shanghai.PriceData p ->
  (0 <? Shanghai.rmb_per_kg p)%float = true ->
  exists q,
    outcome Aggregator.fetchSGE env = Fulfilled q /\
    Aggregator.latest q = Shanghai.rmb_per_kg p /\
    Some (Aggregator.high q) = Shanghai.rmb_high p /\
    Some (Aggregator.low q) = Shanghai.rmb_low p /\
    Aggregator.open q = Shanghai.rmb_open p /\
    outcome Aggregator.fetchFX env = Fulfilled (Shanghai.usd_cny_rate p) /\
    forall result,
      Aggregator.cycle env = Fulfilled result ->
      exists entry,
        Aggregator.sge result = Some entry /\
        Aggregator.usd_per_oz entry = Shanghai.usd_per_oz p.
Proof.
  intros Hr Hb Hpos. destruct (String.eqb_spec method "OPTIONS") as [->|Hm].
  { cbn in Hr. injection Hr as <-. discriminate. }
  rewrite (ShanghaiFacts.handler_recovers _ _ _ Hm) in Hr.
  destruct (Shanghai.attempt env log) as [[reply'|e] log'] eqn:Ha; cbn [fst] in Hr;
    injection Hr as <-; [|discriminate].
  destruct (ShanghaiBehaviour.attempt_fulfilled _ _ _ _ Ha)
    as (r & rows & x & r2 & data & Hn & Hok & Ht & Hx & Hc & Hn2 & Hok2 & Hj & Htr & _ & _ & ->).
  cbn in Hb. injection Hb as <-. cbn in Hpos |- *.
  rewrite ShanghaiFacts.closed_spec in Hc.
  unfold Shanghai.scan in Hx |- *. rewrite ShanghaiBehaviour.fold_scan_row_labelled in Hx |- *.
  destruct (rev (filter Shanghai.labelled rows)) as [|cells l] eqn:Hrev; [discriminate|].
  cbn in Hx. injection Hx as <-.
  assert (Hin : In cells (filter Shanghai.labelled rows))
    by (apply in_rev; rewrite Hrev; now left).
  apply filter_In in Hin. destruct Hin as [_ Hl].
  assert (Hp : Aggregator.priced cells = true).
  { unfold Aggregator.priced. change (Aggregator.labelled cells = true) in Hl.
    unfold Aggregator.labelled in Hl. rewrite Hl. cbn [andb].
    change (Shanghai.cell cells 1) with (Aggregator.cell cells 1) in *.
    rewrite Hpos. unfold truthy_num. now rewrite Hc. }
  destruct (last_labelled_priced rows cells l Hrev Hp) as [l' Hrev'].
  exists (Aggregator.quote_of cells).
  split.
  { rewrite (AggregatorFacts.fetchSGE_outcome env r rows) by assumption.
    unfold Aggregator.scan. now rewrite AggregatorFacts.fold_scan_row, Hrev'. }
  split; [reflexivity|]. split; [reflexivity|]. split; [reflexivity|].
  split; [apply open_agrees|].
  destruct (ShanghaiBehaviour.member_truthy _ _ Htr) as (Hr1 & Hr2 & Hrt).
  destruct (ShanghaiBehaviour.member_truthy _ _ Hrt) as (Hd1 & Hd2 & _).
  assert (Hfx : outcome Aggregator.fetchFX env =
                Fulfilled (member (member data "rates") "CNY")).
  { rewrite (AggregatorFacts.fetchFX_outcome env r2 data) by assumption.
    unfold Aggregator.cny_of. now rewrite Hrt, Htr. }
  split; [exact Hfx|].
  intros result Hcy. unfold Aggregator.cycle in Hcy.
  apply AggregatorFacts.assemble_fulfilled in Hcy. subst result.
  rewrite (AggregatorFacts.fetchSGE_outcome env r rows) by assumption.
  unfold Aggregator.scan. rewrite AggregatorFacts.fold_scan_row, Hrev', Hfx.
  eexists. split; reflexivity.
Qed.


Lemma endpoints_agree_example :
  exists q,
    outcome Aggregator.fetchSGE Upstream.all_up = Fulfilled q /\
    Aggregator.latest q = 9875%float /\
    Aggregator.open q = Some 9850%float /\
    outcome Aggregator.fetchFX Upstream.all_up = Fulfilled (Num 7.15).
Proof.
  destruct (endpoints_agree "GET" Upstream.all_up [] _ _ eq_refl eq_refl eq_refl)
    as (q & Hq & Hlatest & _ & _ & Hopen & Hfx & _).
  exists q. repeat split; assumption.
Defined.

End EndpointsAgree.
